(** * CollabFlow backend: a shallow embedding of the route handlers

    The development follows the layout of the repository:
    - [Js]            the fragment of JavaScript values the handlers compute with
                      (truthiness, [a || b], [a !== undefined ? a : b], [trim],
                      [Array.prototype.includes]);
    - [Model]         the documents of models/*.js and the collections they live in;
    - [Http]          responses ([res.status(n).json(...)]);
    - [Boards], [Tasks], [Comments], [Notifications], [Projects]
                      one module per file of backend/routes;
    - [Realtime]      the Socket.IO handlers of backend/server.js.

    Identifiers (ObjectIds and the caller identity [req.user.id] / [req.userId])
    are the strings the handlers compare.  A handler is a function from the
    store to a response and a new store; the clock value and the ObjectIds the
    driver generates for new documents are inputs ([Model.Env]).

    What lies outside the sources is taken at its contract: the [auth]
    middleware has resolved the token to the caller before a handler runs,
    identifiers are well-formed, and a store operation fails only where a
    schema of models/ says so (the validators of models/Board.js); the
    [catch] branch of a handler is reached only through such a failure or
    through reading a reference that does not resolve. *)

From Stdlib Require Import Ascii Lia.
From stdpp Require Import base strings list gmap sorting.

Open Scope string_scope.

(* ================================================================== *)
(** ** JavaScript values *)
(* ================================================================== *)
Module Js.

(** The JSON values a request field can hold in this model: absent
    ([undefined]), [null], or a string. *)
Inductive value : Type :=
| VUndefined
| VNull
| VStr (s : string).

(** ToBoolean: [undefined], [null] and the empty string are falsy. *)
Definition truthy (v : value) : bool :=
  match v with
  | VStr s => negb (String.eqb s EmptyString)
  | _ => false
  end.

(** [a || b] *)
Definition or_else (a b : value) : value :=
  if truthy a then a else b.

(** [a !== undefined ? a : b] *)
Definition if_defined (a b : value) : value :=
  match a with
  | VUndefined => b
  | _ => a
  end.

(** Template-literal conversion [`${v}`]. *)
Definition template (v : value) : string :=
  match v with
  | VUndefined => "undefined"
  | VNull => "null"
  | VStr s => s
  end.

(** ASCII white space removed by [String.prototype.trim]. *)
Definition is_space (c : ascii) : bool :=
  let n := nat_of_ascii c in
  (Nat.eqb n 32 || Nat.eqb n 9 || Nat.eqb n 10 || Nat.eqb n 11
   || Nat.eqb n 12 || Nat.eqb n 13)%bool.

Fixpoint trim_start (s : string) : string :=
  match s with
  | EmptyString => EmptyString
  | String c s' => if is_space c then trim_start s' else s
  end.

Fixpoint trim_end (s : string) : string :=
  match s with
  | EmptyString => EmptyString
  | String c s' =>
      match trim_end s' with
      | EmptyString => if is_space c then EmptyString else String c EmptyString
      | r => String c r
      end
  end.

Definition trim (s : string) : string := trim_end (trim_start s).

(** A string that is empty or starts with something else than white space. *)
Definition no_leading_space (s : string) : Prop :=
  match s with
  | EmptyString => True
  | String c _ => is_space c = false
  end.

(** A string that is empty or ends with something else than white space. *)
Fixpoint no_trailing_space (s : string) : Prop :=
  match s with
  | EmptyString => True
  | String c s' =>
      match s' with
      | EmptyString => is_space c = false
      | String _ _ => no_trailing_space s'
      end
  end.

(** An array element is a primitive string or an object; the objects that
    occur are the member sub-documents, carried by ['obj]. *)
Inductive element (obj : Type) : Type :=
| EStr (s : string)
| EObj (o : obj).
Arguments EStr {obj} s.
Arguments EObj {obj} o.

(** SameValueZero of an array element with a primitive string: a string is
    compared by contents, an object is never equal to a primitive. *)
Definition same_value_zero {obj} (e : element obj) (x : string) : bool :=
  match e with
  | EStr s => String.eqb s x
  | EObj _ => false
  end.

(** [arr.includes(x)] for a string [x]. *)
Definition includes {obj} (arr : list (element obj)) (x : string) : bool :=
  existsb (fun e => same_value_zero e x) arr.

End Js.

(* ================================================================== *)
(** ** Documents and collections *)
(* ================================================================== *)
Module Model.
Import Js.

Definition Id := string.

Definition eqb_id (a b : Id) : bool := String.eqb a b.

(** Modelled from the spec: models/Project.js is not among the sources.  A
    member entry is a sub-document {user ref, role}: routes/projects.js
    writes [{ user, role }] and queries ['members.user']. *)
Record Member := mkMember { m_user : Id; m_role : string }.

(** Modelled from the spec: models/Project.js is not among the sources.  The
    data model lists identifier, name, description, owner, members, status
    and tags; [p_createdAt] is the instant of creation. *)
Record Project := mkProject {
  p_id : Id;
  p_name : value;
  p_description : value;
  p_owner : Id;
  p_members : list Member;
  p_status : value;
  p_tags : option (list string);
  p_createdAt : nat
}.

(** models/Board.js: name (required, trimmed), description, project
    (required), createdAt.  No handler touches [columns], and the schema has
    no [createdBy] path, so the value the create handler passes under that
    name is not stored. *)
Record Board := mkBoard {
  b_id : Id;
  b_name : value;
  b_description : value;
  b_project : Id;
  b_createdAt : nat
}.

(** Modelled from the spec: models/Task.js is not among the sources.  The
    fields are those of the data model and of the constructor call in
    routes/tasks.js; a task is stored as the handler builds it. *)
Record Task := mkTask {
  t_id : Id;
  t_title : value;
  t_description : value;
  t_priority : value;
  t_status : value;
  t_dueDate : value;
  t_board : value;
  t_project : Id;
  t_createdBy : Id;
  t_assignedTo : value;
  t_createdAt : nat
}.

(** Modelled from the spec: models/Comment.js is not among the sources
    (content, author, task reference, creation time). *)
Record Comment := mkComment {
  c_id : Id;
  c_content : value;
  c_task : Id;
  c_author : Id;
  c_createdAt : nat
}.

(** Modelled from the spec: models/Notification.js is not among the sources
    (recipient, type, message, related task and project, read flag, creation
    time).  The two types are the ones the handlers write; a new notification
    is unread. *)
Inductive NotificationType := task_assigned | comment_added.

Record Notification := mkNotification {
  n_id : Id;
  n_user : Id;
  n_type : NotificationType;
  n_message : string;
  n_relatedTask : Id;
  n_relatedProject : Id;
  n_read : bool;
  n_createdAt : nat
}.

(** A collection is the list of its documents in insertion order. *)
Record Store := mkStore {
  projects : list Project;
  boards : list Board;
  tasks : list Task;
  comments : list Comment;
  notifications : list Notification
}.

Definition empty_store : Store := mkStore [] [] [] [] [].

(** What a handler reads from its surroundings besides the store: the
    current time ([Date.now]) and the ObjectIds generated for the document
    it creates and for the notification it may create. *)
Record Env := mkEnv { now : nat; oid : Id; notif_oid : Id }.

Section Collection.
Context {D : Type} (key : D -> Id).

(** [Model.findById(id)] *)
Definition findById (id : Id) (coll : list D) : option D :=
  List.find (fun d => eqb_id (key d) id) coll.

(** [doc.save()] for a new document *)
Definition insert_doc (d : D) (coll : list D) : list D := coll ++ [d].

(** [doc.save()] for a loaded document *)
Definition replace_doc (d : D) (coll : list D) : list D :=
  List.map (fun x => if eqb_id (key x) (key d) then d else x) coll.

(** [doc.deleteOne()] *)
Definition delete_doc (id : Id) (coll : list D) : list D :=
  List.filter (fun x => negb (eqb_id (key x) id)) coll.

(** [Model.findOneAndUpdate(filter, update)]: the first document that
    matches the filter is rewritten, the others are left alone. *)
Fixpoint update_one (matches : D -> bool) (change : D -> D) (coll : list D)
  : list D :=
  match coll with
  | [] => []
  | d :: rest =>
      if matches d then change d :: rest
      else d :: update_one matches change rest
  end.

(** [Model.findOneAndDelete(filter)] *)
Fixpoint delete_one (matches : D -> bool) (coll : list D) : list D :=
  match coll with
  | [] => []
  | d :: rest => if matches d then rest else d :: delete_one matches rest
  end.
End Collection.

Definition set_projects (s : Store) (l : list Project) : Store :=
  mkStore l (boards s) (tasks s) (comments s) (notifications s).
Definition set_boards (s : Store) (l : list Board) : Store :=
  mkStore (projects s) l (tasks s) (comments s) (notifications s).
Definition set_tasks (s : Store) (l : list Task) : Store :=
  mkStore (projects s) (boards s) l (comments s) (notifications s).
Definition set_comments (s : Store) (l : list Comment) : Store :=
  mkStore (projects s) (boards s) (tasks s) l (notifications s).
Definition set_notifications (s : Store) (l : list Notification) : Store :=
  mkStore (projects s) (boards s) (tasks s) (comments s) l.

(** [.sort({ createdAt: -1 })]: newest first. *)
Definition newer_first {D} (created : D -> nat) : relation D :=
  fun x y => created y <= created x.

#[global] Instance newer_first_dec {D} (created : D -> nat) (x y : D) :
  Decision (newer_first created x y) := decide (created y <= created x).

Definition sort_desc {D} (created : D -> nat) (l : list D) : list D :=
  merge_sort (newer_first created) l.

(** [.limit(n)] *)
Definition limit {D} (n : nat) (l : list D) : list D := firstn n l.

End Model.

(* ================================================================== *)
(** ** Responses *)
(* ================================================================== *)
Module Http.
Import Model.

(** The JSON bodies the handlers send.  A document re-read after a save is
    an [option]: [None] is the JSON [null] of a query without a result.
    Relationship expansion ([populate] with display fields) only changes
    how references are shown and is not part of the body here. *)
Inductive body : Type :=
| Message (s : string)                    (* { message: s } *)
| Error (s : string)                      (* { error: s } *)
| Count (n : nat)                         (* { count: n } *)
| OneProject (p : Project)
| ProjectList (l : list Project)
| OneBoard (b : Board)
| BoardList (l : list Board)
| OneTask (t : option Task)
| TaskList (l : list Task)
| OneComment (c : option Comment)
| CommentList (l : list Comment)
| OneNotification (n : Notification)
| NotificationList (l : list Notification).

Record response := mkResponse { status : nat; content : body }.

(** [res.json(b)] *)
Definition ok (b : body) : response := mkResponse 200 b.
(** [res.status(201).json(b)] *)
Definition created (b : body) : response := mkResponse 201 b.
(** [res.status(404).json({ message })] *)
Definition not_found (msg : string) : response := mkResponse 404 (Message msg).
(** [res.status(403).json({ message })] *)
Definition forbidden (msg : string) : response := mkResponse 403 (Message msg).
(** the [catch] branch: [res.status(500).json({ message: 'Server error' })] *)
Definition server_error : response := mkResponse 500 (Message "Server error").

End Http.

(* ================================================================== *)
(** ** The checks the handlers repeat *)
(* ================================================================== *)
Module Access.
Import Js Model.

(** [project.members] as the array the handlers call [includes] on: its
    elements are the member sub-documents. *)
Definition members_array (project : Project) : list (element Member) :=
  List.map EObj (p_members project).

(** [project.owner.toString() !== req.user.id &&
     !project.members.includes(req.user.id)] *)
Definition access_denied (project : Project) (caller : Id) : bool :=
  negb (eqb_id (p_owner project) caller)
  && negb (includes (members_array project) caller).

(** [project.owner.toString() !== req.user.id] *)
Definition not_owner (project : Project) (caller : Id) : bool :=
  negb (eqb_id (p_owner project) caller).

(** [Model.findById(v)] for an identifier taken from the request body:
    nothing is found for [undefined] or [null]. *)
Definition find_ref {D} (key : D -> Id) (v : value) (coll : list D) : option D :=
  match v with
  | VStr id => findById key id coll
  | _ => None
  end.

End Access.

(* ================================================================== *)
(** ** routes/boards.js *)
(* ================================================================== *)
Module Boards.
Import Js Model Http Access.

(** [const { name, description, projectId } = req.body] *)
Record create_body := mkCreate { cb_name : value; cb_description : value; cb_projectId : value }.
(** [const { name, description } = req.body] *)
Record update_body := mkUpdate { ub_name : value; ub_description : value }.

(** The setter of [name] in models/Board.js ([trim: true]). *)
Definition set_name (v : value) : value :=
  match v with
  | VStr s => VStr (trim s)
  | _ => v
  end.

(** The validator of [name] in models/Board.js ([required: true]): a
    missing, null or empty name makes [save] throw. *)
Definition valid (b : Board) : bool := truthy (b_name b).

(** POST /api/boards *)
Definition create (caller : Id) (env : Env) (body : create_body) (st : Store)
  : response * Store :=
  match find_ref p_id (cb_projectId body) (projects st) with
  | None => (not_found "Project not found", st)
  | Some project =>
      if access_denied project caller then (forbidden "Not authorized", st)
      else
        let board := mkBoard (oid env) (set_name (cb_name body)) (cb_description body)
                             (p_id project) (now env) in
        if valid board
        then (created (OneBoard board), set_boards st (insert_doc board (boards st)))
        else (server_error, st)
  end.

(** GET /api/boards/project/:projectId *)
Definition list_by_project (caller : Id) (projectId : Id) (st : Store)
  : response * Store :=
  match findById p_id projectId (projects st) with
  | None => (not_found "Project not found", st)
  | Some project =>
      if access_denied project caller then (forbidden "Not authorized", st)
      else
        (ok (BoardList
               (sort_desc b_createdAt
                  (List.filter (fun b => eqb_id (b_project b) projectId) (boards st)))),
         st)
  end.

(** GET /api/boards/:id *)
Definition get (caller : Id) (id : Id) (st : Store) : response * Store :=
  match findById b_id id (boards st) with
  | None => (not_found "Board not found", st)
  | Some board =>
      match findById p_id (b_project board) (projects st) with
      | None => (server_error, st)
      | Some project =>
          if access_denied project caller then (forbidden "Not authorized", st)
          else (ok (OneBoard board), st)
      end
  end.

(** The two assignments of PUT /api/boards/:id:
    [board.name = name || board.name;
     board.description = description || board.description;] *)
Definition patch (body : update_body) (board : Board) : Board :=
  mkBoard (b_id board)
          (set_name (or_else (ub_name body) (b_name board)))
          (or_else (ub_description body) (b_description board))
          (b_project board)
          (b_createdAt board).

(** PUT /api/boards/:id *)
Definition update (caller : Id) (id : Id) (body : update_body) (st : Store)
  : response * Store :=
  match findById b_id id (boards st) with
  | None => (not_found "Board not found", st)
  | Some board =>
      match findById p_id (b_project board) (projects st) with
      | None => (server_error, st)
      | Some project =>
          if access_denied project caller then (forbidden "Not authorized", st)
          else
            let board' := patch body board in
            if valid board'
            then (ok (OneBoard board'), set_boards st (replace_doc b_id board' (boards st)))
            else (server_error, st)
      end
  end.

(** DELETE /api/boards/:id *)
Definition delete (caller : Id) (id : Id) (st : Store) : response * Store :=
  match findById b_id id (boards st) with
  | None => (not_found "Board not found", st)
  | Some board =>
      match findById p_id (b_project board) (projects st) with
      | None => (server_error, st)
      | Some project =>
          if not_owner project caller
          then (forbidden "Only project owner can delete boards", st)
          else (ok (Message "Board deleted successfully"),
                set_boards st (delete_doc b_id id (boards st)))
      end
  end.

End Boards.

(* ================================================================== *)
(** ** routes/tasks.js *)
(* ================================================================== *)
Module Tasks.
Import Js Model Http Access.

(** [const { title, description, priority, status, dueDate, boardId,
            projectId, assignedTo } = req.body] *)
Record create_body := mkCreate {
  cb_title : value; cb_description : value; cb_priority : value;
  cb_status : value; cb_dueDate : value; cb_boardId : value;
  cb_projectId : value; cb_assignedTo : value
}.

(** [const { title, description, priority, status, dueDate, assignedTo }
      = req.body] *)
Record update_body := mkUpdate {
  ub_title : value; ub_description : value; ub_priority : value;
  ub_status : value; ub_dueDate : value; ub_assignedTo : value
}.

(** [new Notification({ user, type: 'task_assigned', message:
      `You have been assigned to task: ${title}`, relatedTask,
      relatedProject })] *)
Definition assignment_notification (env : Env) (user : value) (title : value)
    (task project : Id) : Notification :=
  mkNotification (notif_oid env) (template user) task_assigned
                 ("You have been assigned to task: " ++ template title)
                 task project false (now env).

(** [assignedTo && assignedTo.toString() !== req.user.id] *)
Definition notifies_on_create (assignedTo : value) (caller : Id) : bool :=
  truthy assignedTo && negb (String.eqb (template assignedTo) caller).

(** POST /api/tasks *)
Definition create (caller : Id) (env : Env) (body : create_body) (st : Store)
  : response * Store :=
  match find_ref p_id (cb_projectId body) (projects st) with
  | None => (not_found "Project not found", st)
  | Some project =>
      if access_denied project caller then (forbidden "Not authorized", st)
      else
        let board_missing :=
          if truthy (cb_boardId body)
          then match find_ref b_id (cb_boardId body) (boards st) with
               | None => true
               | Some _ => false
               end
          else false in
        if board_missing then (not_found "Board not found", st)
        else
          let task := mkTask (oid env) (cb_title body) (cb_description body)
                             (cb_priority body) (cb_status body) (cb_dueDate body)
                             (cb_boardId body) (p_id project) caller
                             (cb_assignedTo body) (now env) in
          let st1 := set_tasks st (insert_doc task (tasks st)) in
          let st2 :=
            if notifies_on_create (cb_assignedTo body) caller
            then set_notifications st1
                   (insert_doc
                      (assignment_notification env (cb_assignedTo body) (cb_title body)
                         (t_id task) (p_id project))
                      (notifications st1))
            else st1 in
          (created (OneTask (findById t_id (t_id task) (tasks st2))), st2)
  end.

(** GET /api/tasks/project/:projectId *)
Definition list_by_project (caller : Id) (projectId : Id) (st : Store)
  : response * Store :=
  match findById p_id projectId (projects st) with
  | None => (not_found "Project not found", st)
  | Some project =>
      if access_denied project caller then (forbidden "Not authorized", st)
      else
        (ok (TaskList
               (sort_desc t_createdAt
                  (List.filter (fun t => eqb_id (t_project t) projectId) (tasks st)))),
         st)
  end.

(** GET /api/tasks/board/:boardId *)
Definition list_by_board (caller : Id) (boardId : Id) (st : Store)
  : response * Store :=
  match findById b_id boardId (boards st) with
  | None => (not_found "Board not found", st)
  | Some board =>
      match findById p_id (b_project board) (projects st) with
      | None => (server_error, st)
      | Some project =>
          if access_denied project caller then (forbidden "Not authorized", st)
          else
            (ok (TaskList
                   (sort_desc t_createdAt
                      (List.filter
                         (fun t => match t_board t with
                                   | VStr b => eqb_id b boardId
                                   | _ => false
                                   end)
                         (tasks st)))),
             st)
      end
  end.

(** GET /api/tasks/:id *)
Definition get (caller : Id) (id : Id) (st : Store) : response * Store :=
  match findById t_id id (tasks st) with
  | None => (not_found "Task not found", st)
  | Some task =>
      match findById p_id (t_project task) (projects st) with
      | None => (server_error, st)
      | Some project =>
          if access_denied project caller then (forbidden "Not authorized", st)
          else (ok (OneTask (Some task)), st)
      end
  end.

(** [assignedTo && task.assignedTo &&
     assignedTo.toString() !== task.assignedTo.toString()] *)
Definition notifies_on_update (assignedTo : value) (task : Task) : bool :=
  truthy assignedTo && truthy (t_assignedTo task)
  && negb (String.eqb (template assignedTo) (template (t_assignedTo task))).

(** The six assignments of PUT /api/tasks/:id. *)
Definition patch (body : update_body) (task : Task) : Task :=
  mkTask (t_id task)
         (or_else (ub_title body) (t_title task))
         (if_defined (ub_description body) (t_description task))
         (or_else (ub_priority body) (t_priority task))
         (or_else (ub_status body) (t_status task))
         (if_defined (ub_dueDate body) (t_dueDate task))
         (t_board task)
         (t_project task)
         (t_createdBy task)
         (if_defined (ub_assignedTo body) (t_assignedTo task))
         (t_createdAt task).

(** PUT /api/tasks/:id *)
Definition update (caller : Id) (env : Env) (id : Id) (body : update_body) (st : Store)
  : response * Store :=
  match findById t_id id (tasks st) with
  | None => (not_found "Task not found", st)
  | Some task =>
      match findById p_id (t_project task) (projects st) with
      | None => (server_error, st)
      | Some project =>
          if access_denied project caller then (forbidden "Not authorized", st)
          else
            let st1 :=
              if notifies_on_update (ub_assignedTo body) task
              then set_notifications st
                     (insert_doc
                        (assignment_notification env (ub_assignedTo body) (t_title task)
                           (t_id task) (p_id project))
                        (notifications st))
              else st in
            let st2 := set_tasks st1 (replace_doc t_id (patch body task) (tasks st1)) in
            (ok (OneTask (findById t_id (t_id task) (tasks st2))), st2)
      end
  end.

(** DELETE /api/tasks/:id *)
Definition delete (caller : Id) (id : Id) (st : Store) : response * Store :=
  match findById t_id id (tasks st) with
  | None => (not_found "Task not found", st)
  | Some task =>
      match findById p_id (t_project task) (projects st) with
      | None => (server_error, st)
      | Some project =>
          if not_owner project caller
          then (forbidden "Only project owner can delete tasks", st)
          else (ok (Message "Task deleted successfully"),
                set_tasks st (delete_doc t_id id (tasks st)))
      end
  end.

End Tasks.

(* ================================================================== *)
(** ** routes/comments.js *)
(* ================================================================== *)
Module Comments.
Import Js Model Http Access.

(** [const { content, taskId } = req.body] *)
Record create_body := mkCreate { cb_content : value; cb_taskId : value }.

(** [new Notification({ user: task.assignedTo, type: 'comment_added',
      message: `New comment on task: ${task.title}`, relatedTask: taskId,
      relatedProject: project._id })] *)
Definition comment_notification (env : Env) (task : Task) (project : Id) : Notification :=
  mkNotification (notif_oid env) (template (t_assignedTo task)) comment_added
                 ("New comment on task: " ++ template (t_title task))
                 (t_id task) project false (now env).

(** [task.assignedTo && task.assignedTo.toString() !== req.user.id] *)
Definition notifies (task : Task) (caller : Id) : bool :=
  truthy (t_assignedTo task)
  && negb (String.eqb (template (t_assignedTo task)) caller).

(** POST /api/comments *)
Definition create (caller : Id) (env : Env) (body : create_body) (st : Store)
  : response * Store :=
  match find_ref t_id (cb_taskId body) (tasks st) with
  | None => (not_found "Task not found", st)
  | Some task =>
      match findById p_id (t_project task) (projects st) with
      | None => (server_error, st)
      | Some project =>
          if access_denied project caller then (forbidden "Not authorized", st)
          else
            let comment := mkComment (oid env) (cb_content body) (t_id task) caller
                                     (now env) in
            let st1 := set_comments st (insert_doc comment (comments st)) in
            let st2 :=
              if notifies task caller
              then set_notifications st1
                     (insert_doc (comment_notification env task (p_id project))
                        (notifications st1))
              else st1 in
            (created (OneComment (findById c_id (c_id comment) (comments st2))), st2)
      end
  end.

(** GET /api/comments/task/:taskId *)
Definition list_by_task (caller : Id) (taskId : Id) (st : Store) : response * Store :=
  match findById t_id taskId (tasks st) with
  | None => (not_found "Task not found", st)
  | Some task =>
      match findById p_id (t_project task) (projects st) with
      | None => (server_error, st)
      | Some project =>
          if access_denied project caller then (forbidden "Not authorized", st)
          else
            (ok (CommentList
                   (sort_desc c_createdAt
                      (List.filter (fun c => eqb_id (c_task c) taskId) (comments st)))),
             st)
      end
  end.

(** [comment.task.project] after
    [populate({ path: 'task', populate: { path: 'project' } })]: reading it
    throws when the task, or the project of the task, no longer exists. *)
Definition project_of (comment : Comment) (st : Store) : option Project :=
  match findById t_id (c_task comment) (tasks st) with
  | None => None
  | Some task => findById p_id (t_project task) (projects st)
  end.

(** GET /api/comments/:id *)
Definition get (caller : Id) (id : Id) (st : Store) : response * Store :=
  match findById c_id id (comments st) with
  | None => (not_found "Comment not found", st)
  | Some comment =>
      match project_of comment st with
      | None => (server_error, st)
      | Some project =>
          if access_denied project caller then (forbidden "Not authorized", st)
          else (ok (OneComment (Some comment)), st)
      end
  end.

(** [comment.content = content || comment.content] *)
Definition patch (content : value) (comment : Comment) : Comment :=
  mkComment (c_id comment) (or_else content (c_content comment))
            (c_task comment) (c_author comment) (c_createdAt comment).

(** PUT /api/comments/:id *)
Definition update (caller : Id) (id : Id) (content : value) (st : Store)
  : response * Store :=
  match findById c_id id (comments st) with
  | None => (not_found "Comment not found", st)
  | Some comment =>
      if negb (eqb_id (c_author comment) caller)
      then (forbidden "Only comment author can update it", st)
      else
        let st1 := set_comments st (replace_doc c_id (patch content comment) (comments st)) in
        (ok (OneComment (findById c_id (c_id comment) (comments st1))), st1)
  end.

(** DELETE /api/comments/:id *)
Definition delete (caller : Id) (id : Id) (st : Store) : response * Store :=
  match findById c_id id (comments st) with
  | None => (not_found "Comment not found", st)
  | Some comment =>
      match project_of comment st with
      | None => (server_error, st)
      | Some project =>
          if negb (eqb_id (c_author comment) caller) && not_owner project caller
          then (forbidden "Not authorized to delete this comment", st)
          else (ok (Message "Comment deleted successfully"),
                set_comments st (delete_doc c_id id (comments st)))
      end
  end.

End Comments.

(* ================================================================== *)
(** ** routes/notifications.js *)
(* ================================================================== *)
Module Notifications.
Import Js Model Http Access.

Definition of_user (caller : Id) (n : Notification) : bool := eqb_id (n_user n) caller.
Definition unread_of_user (caller : Id) (n : Notification) : bool :=
  eqb_id (n_user n) caller && negb (n_read n).

(** GET /api/notifications *)
Definition list_for_caller (caller : Id) (st : Store) : response * Store :=
  (ok (NotificationList
         (limit 50 (sort_desc n_createdAt (List.filter (of_user caller) (notifications st))))),
   st).

(** GET /api/notifications/unread *)
Definition unread (caller : Id) (st : Store) : response * Store :=
  (ok (NotificationList
         (sort_desc n_createdAt (List.filter (unread_of_user caller) (notifications st)))),
   st).

(** GET /api/notifications/count *)
Definition count (caller : Id) (st : Store) : response * Store :=
  (ok (Count (length (List.filter (unread_of_user caller) (notifications st)))), st).

(** GET /api/notifications/:id *)
Definition get (caller : Id) (id : Id) (st : Store) : response * Store :=
  match findById n_id id (notifications st) with
  | None => (not_found "Notification not found", st)
  | Some notification =>
      if negb (eqb_id (n_user notification) caller)
      then (forbidden "Not authorized", st)
      else (ok (OneNotification notification), st)
  end.

(** [notification.read = true] *)
Definition mark_read (n : Notification) : Notification :=
  mkNotification (n_id n) (n_user n) (n_type n) (n_message n) (n_relatedTask n)
                 (n_relatedProject n) true (n_createdAt n).

(** PUT /api/notifications/:id/read *)
Definition read (caller : Id) (id : Id) (st : Store) : response * Store :=
  match findById n_id id (notifications st) with
  | None => (not_found "Notification not found", st)
  | Some notification =>
      if negb (eqb_id (n_user notification) caller)
      then (forbidden "Not authorized", st)
      else
        let n' := mark_read notification in
        (ok (OneNotification n'),
         set_notifications st (replace_doc n_id n' (notifications st)))
  end.

(** PUT /api/notifications/read-all *)
Definition read_all (caller : Id) (st : Store) : response * Store :=
  (ok (Message "All notifications marked as read"),
   set_notifications st
     (List.map (fun n => if unread_of_user caller n then mark_read n else n)
        (notifications st))).

(** DELETE /api/notifications/:id *)
Definition delete (caller : Id) (id : Id) (st : Store) : response * Store :=
  match findById n_id id (notifications st) with
  | None => (not_found "Notification not found", st)
  | Some notification =>
      if negb (eqb_id (n_user notification) caller)
      then (forbidden "Not authorized", st)
      else (ok (Message "Notification deleted successfully"),
            set_notifications st (delete_doc n_id id (notifications st)))
  end.

(** DELETE /api/notifications *)
Definition delete_all (caller : Id) (st : Store) : response * Store :=
  (ok (Message "All notifications deleted successfully"),
   set_notifications st
     (List.filter (fun n => negb (of_user caller n)) (notifications st))).

End Notifications.

(* ================================================================== *)
(** ** routes/projects.js *)
(* ================================================================== *)
Module Projects.
Import Js Model Http Access.

(** [const { name, description, tags } = req.body] *)
Record create_body := mkCreate {
  cb_name : value; cb_description : value; cb_tags : option (list string)
}.
(** [const { name, description, status, tags } = req.body] *)
Record update_body := mkUpdate {
  ub_name : value; ub_description : value; ub_status : value;
  ub_tags : option (list string)
}.

(** [{ $or: [{ owner: req.userId }, { 'members.user': req.userId }] }] *)
Definition in_scope (caller : Id) (p : Project) : bool :=
  eqb_id (p_owner p) caller
  || existsb (fun m => eqb_id (m_user m) caller) (p_members p).

(** GET /api/projects: [Project.find(...)], no [sort], no [limit]. *)
Definition list_for_caller (caller : Id) (st : Store) : response * Store :=
  (ok (ProjectList (List.filter (in_scope caller) (projects st))), st).

(** POST /api/projects.  The [status] of the new document is whatever
    the schema leaves when the constructor gets none: unset here.  The
    [$push] into the caller's User document touches a collection no
    handler of this development reads. *)
Definition create (caller : Id) (env : Env) (body : create_body) (st : Store)
  : response * Store :=
  let project := mkProject (oid env) (cb_name body) (cb_description body) caller
                           [mkMember caller "owner"] VUndefined (cb_tags body)
                           (now env) in
  (created (OneProject project), set_projects st (insert_doc project (projects st))).

(** GET /api/projects/:id *)
Definition get (caller : Id) (id : Id) (st : Store) : response * Store :=
  match findById p_id id (projects st) with
  | None => (mkResponse 404 (Error "Project not found"), st)
  | Some project => (ok (OneProject project), st)
  end.

(** One path of the update document [{ name, description, status, tags }].
    An [undefined] entry is dropped from the update when the ODM omits
    undefined keys ([omit = true]) and written as [null] otherwise. *)
Definition set_path (omit : bool) (new old : value) : value :=
  match new with
  | VUndefined => if omit then old else VNull
  | _ => new
  end.

Definition set_tags (omit : bool) (new old : option (list string))
  : option (list string) :=
  match new with
  | None => if omit then old else None
  | Some _ => new
  end.

Definition apply_update (omit : bool) (body : update_body) (p : Project) : Project :=
  mkProject (p_id p)
            (set_path omit (ub_name body) (p_name p))
            (set_path omit (ub_description body) (p_description p))
            (p_owner p)
            (p_members p)
            (set_path omit (ub_status body) (p_status p))
            (set_tags omit (ub_tags body) (p_tags p))
            (p_createdAt p).

(** The filter [{ _id: req.params.id, owner: req.userId }]. *)
Definition owned_by (caller : Id) (id : Id) (p : Project) : bool :=
  eqb_id (p_id p) id && eqb_id (p_owner p) caller.

(** PUT /api/projects/:id: [findOneAndUpdate(filter, update, { new: true })] *)
Definition update (omit : bool) (caller : Id) (id : Id) (body : update_body) (st : Store)
  : response * Store :=
  match List.find (owned_by caller id) (projects st) with
  | None => (mkResponse 404 (Error "Project not found or unauthorized"), st)
  | Some project =>
      let project' := apply_update omit body project in
      (ok (OneProject project'),
       set_projects st
         (update_one (owned_by caller id) (apply_update omit body) (projects st)))
  end.

(** DELETE /api/projects/:id: [findOneAndDelete(filter)] *)
Definition delete (caller : Id) (id : Id) (st : Store) : response * Store :=
  match List.find (owned_by caller id) (projects st) with
  | None => (mkResponse 404 (Error "Project not found or unauthorized"), st)
  | Some project =>
      (ok (Message "Project deleted"),
       set_projects st (delete_one (owned_by caller id) (projects st)))
  end.

End Projects.

(* ================================================================== *)
(** ** server.js: the Socket.IO handlers *)
(* ================================================================== *)
Module Realtime.
Import Js.

Definition SocketId := nat.

(** The object a client sends with [task-updated] or [comment-added]: the
    handlers read [data.projectId] and pass the rest along untouched. *)
Record payload := mkPayload { projectId : value; fields : string }.

(** [`project-${projectId}`] *)
Definition room_of (projectId : value) : string := "project-" ++ template projectId.

(** The adapter's table: who has joined which room. *)
Abbreviation hub := (gmap string (gset SocketId)).

Definition joined (room : string) (h : hub) : gset SocketId :=
  default ∅ (h !! room).

Record delivery := mkDelivery { recipient : SocketId; event : string; data : payload }.

(** [socket.join(room)] *)
Definition join (s : SocketId) (room : string) (h : hub) : hub :=
  <[room := {[s]} ∪ joined room h]> h.

(** [io.to(room).emit(ev, data)]: one delivery per socket in the room. *)
Definition emit_to (room : string) (ev : string) (d : payload) (h : hub) : list delivery :=
  (fun t => mkDelivery t ev d) <$> elements (joined room h).

(** What a connected socket can send. *)
Inductive message : Type :=
| JoinProject (projectId : value)
| TaskUpdated (d : payload)
| CommentAdded (d : payload)
| Disconnect.

(** The handlers registered in [io.on('connection', ...)], run for a message
    of socket [s].  On disconnect the handler only logs; the transport
    takes the socket out of its rooms. *)
Definition on (s : SocketId) (m : message) (h : hub) : list delivery * hub :=
  match m with
  | JoinProject projectId => ([], join s (room_of projectId) h)
  | TaskUpdated d => (emit_to (room_of (projectId d)) "task-update" d h, h)
  | CommentAdded d => (emit_to (room_of (projectId d)) "new-comment" d h, h)
  | Disconnect => ([], (fun members => members ∖ {[s]}) <$> h)
  end.

End Realtime.

(* ================================================================== *)
(** ** The HTTP surface as one transition function *)
(* ================================================================== *)
Module Api.
Import Js Model Http Access.

(** The handlers that act on one board, task, comment or notification
    given by [:id]. *)
Inductive by_id : Type :=
| GetBoard
| PutBoard (body : Boards.update_body)
| DeleteBoard
| GetTask
| PutTask (env : Env) (body : Tasks.update_body)
| DeleteTask
| GetComment
| PutComment (content : value)
| DeleteComment
| GetNotification
| ReadNotification
| DeleteNotification.

Definition run_by_id (h : by_id) (caller id : Id) (st : Store) : response * Store :=
  match h with
  | GetBoard => Boards.get caller id st
  | PutBoard body => Boards.update caller id body st
  | DeleteBoard => Boards.delete caller id st
  | GetTask => Tasks.get caller id st
  | PutTask env body => Tasks.update caller env id body st
  | DeleteTask => Tasks.delete caller id st
  | GetComment => Comments.get caller id st
  | PutComment content => Comments.update caller id content st
  | DeleteComment => Comments.delete caller id st
  | GetNotification => Notifications.get caller id st
  | ReadNotification => Notifications.read caller id st
  | DeleteNotification => Notifications.delete caller id st
  end.

(** Every route of the five routers. *)
Inductive request : Type :=
| ById (h : by_id) (id : Id)
| PostBoard (env : Env) (body : Boards.create_body)
| ListBoards (projectId : Id)
| PostTask (env : Env) (body : Tasks.create_body)
| ListProjectTasks (projectId : Id)
| ListBoardTasks (boardId : Id)
| PostComment (env : Env) (body : Comments.create_body)
| ListComments (taskId : Id)
| ListNotifications
| UnreadNotifications
| CountNotifications
| ReadAllNotifications
| DeleteAllNotifications
| ListProjects
| PostProject (env : Env) (body : Projects.create_body)
| GetProject (id : Id)
| PutProject (omit : bool) (id : Id) (body : Projects.update_body)
| DeleteProject (id : Id).

Definition handle (caller : Id) (r : request) (st : Store) : response * Store :=
  match r with
  | ById h id => run_by_id h caller id st
  | PostBoard env body => Boards.create caller env body st
  | ListBoards projectId => Boards.list_by_project caller projectId st
  | PostTask env body => Tasks.create caller env body st
  | ListProjectTasks projectId => Tasks.list_by_project caller projectId st
  | ListBoardTasks boardId => Tasks.list_by_board caller boardId st
  | PostComment env body => Comments.create caller env body st
  | ListComments taskId => Comments.list_by_task caller taskId st
  | ListNotifications => Notifications.list_for_caller caller st
  | UnreadNotifications => Notifications.unread caller st
  | CountNotifications => Notifications.count caller st
  | ReadAllNotifications => Notifications.read_all caller st
  | DeleteAllNotifications => Notifications.delete_all caller st
  | ListProjects => Projects.list_for_caller caller st
  | PostProject env body => Projects.create caller env body st
  | GetProject id => Projects.get caller id st
  | PutProject omit id body => Projects.update omit caller id body st
  | DeleteProject id => Projects.delete caller id st
  end.

(** The stores the handlers can produce from the empty one. *)
Inductive reachable : Store -> Prop :=
| reach_empty : reachable empty_store
| reach_step st caller r :
    reachable st -> reachable (snd (handle caller r st)).

Definition present {A} (o : option A) : bool :=
  match o with
  | Some _ => true
  | None => false
  end.

(** The three handlers that contain the notification emitter. *)
Definition emits (r : request) : bool :=
  match r with
  | PostTask _ _ | PostComment _ _ | ById (PutTask _ _) _ => true
  | _ => false
  end.


(** Does the entity a by-id handler is about exist? *)
Definition found (h : by_id) (id : Id) (st : Store) : bool :=
  match h with
  | GetBoard | PutBoard _ | DeleteBoard => present (findById b_id id (boards st))
  | GetTask | PutTask _ _ | DeleteTask => present (findById t_id id (tasks st))
  | GetComment | PutComment _ | DeleteComment => present (findById c_id id (comments st))
  | GetNotification | ReadNotification | DeleteNotification =>
      present (findById n_id id (notifications st))
  end.





End Api.

(* ================================================================== *)
(** ** The specification's own words, as predicates *)
(* ================================================================== *)
Module Spec.
Import Js Model.

(** [canAccess(caller, project)]: the caller is the owner or is listed in
    the members. *)
Definition can_access (caller : Id) (project : Project) : Prop :=
  caller = p_owner project \/ exists m, In m (p_members project) /\ m_user m = caller.


(** The update trigger of the emitter: an [assignedTo] different from both
    the caller and the previous assignee. *)
Definition reassignment_trigger (assignedTo : value) (caller : Id) (previous : value)
  : Prop :=
  truthy assignedTo = true /\ template assignedTo <> caller /\ assignedTo <> previous.

(** The owner is listed with the role "owner". *)
Definition owner_listed (p : Project) : Prop :=
  In (mkMember (p_owner p) "owner") (p_members p).

(** A rebroadcast to all other subscribers: no delivery goes back to the
    publisher. *)
Definition excludes_publisher (publisher : Realtime.SocketId)
    (deliveries : list Realtime.delivery) : Prop :=
  forall dl, dl ∈ deliveries -> Realtime.recipient dl <> publisher.

(** Newest first. *)
Definition newest_first {D} (created : D -> nat) (l : list D) : Prop :=
  Sorted (newer_first created) l.

End Spec.

(* ================================================================== *)
(** ** Shapes of stored data *)
(* ================================================================== *)
Module Shape.
Import Js Model.

(** The unique index on [_id]: no two documents of a collection share an
    identifier. *)
Definition unique {D} (key : D -> Id) (coll : list D) : Prop :=
  NoDup (List.map key coll).

(** A board name as the validators and the setter of models/Board.js let it
    through: a non-empty string without white space at either end. *)
Definition well_named (b : Board) : Prop :=
  exists s, b_name b = VStr s /\ s <> EmptyString
            /\ no_leading_space s /\ no_trailing_space s.


End Shape.

(* ================================================================== *)
(** ** Concrete stores used below *)
(* ================================================================== *)
Module Examples.
Import Js Model.

(** A project of "A" in which "B" is listed as a member. *)
Definition shared_project : Project :=
  mkProject "p1" (VStr "Demo") VUndefined "A"
            [mkMember "A" "owner"; mkMember "B" "member"] VUndefined None 1.

Definition sprint_board : Board := mkBoard "b1" (VStr "Sprint 1") VUndefined "p1" 2.

(** A task nobody is assigned to, and one assigned to "B". *)
Definition open_task : Task :=
  mkTask "t1" (VStr "Design login") (VStr "Create UI") (VStr "high") (VStr "todo")
         VNull (VStr "b1") "p1" "A" VNull 3.
Definition assigned_task : Task :=
  mkTask "t2" (VStr "Write tests") VUndefined (VStr "low") (VStr "todo")
         VNull VUndefined "p1" "A" (VStr "B") 4.

Definition first_comment : Comment := mkComment "c1" (VStr "Looks good") "t2" "B" 5.

Definition first_notification : Notification :=
  mkNotification "n1" "B" task_assigned "You have been assigned to task: Write tests"
                 "t2" "p1" false 4.

Definition store1 : Store :=
  mkStore [shared_project] [sprint_board] [open_task; assigned_task] [first_comment]
          [first_notification].

Definition env1 : Env := mkEnv 10 "x1" "x2".

(** The body of the scenario "create Project {name: "Demo"}". *)
Definition demo_body : Projects.create_body :=
  Projects.mkCreate (VStr "Demo") VUndefined None.

(** Update payloads that only set [assignedTo]. *)
Definition assign_to_B : Tasks.update_body :=
  Tasks.mkUpdate VUndefined VUndefined VUndefined VUndefined VUndefined (VStr "B").

Definition assign_to_A : Tasks.update_body :=
  Tasks.mkUpdate VUndefined VUndefined VUndefined VUndefined VUndefined (VStr "A").

(** A task for "B", and a comment on the task of "B". *)
Definition task_for_B : Tasks.create_body :=
  Tasks.mkCreate (VStr "Review") VUndefined VUndefined VUndefined VUndefined
                 VUndefined (VStr "p1") (VStr "B").
Definition comment_on_t2 : Comments.create_body :=
  Comments.mkCreate (VStr "Please check") (VStr "t2").


(** A client event for project "p1". *)
Definition task_event : Realtime.payload :=
  Realtime.mkPayload (VStr "p1") "{ taskId: t1, status: done }".

(** Socket 1 has joined the room of project "p1"; socket 2 has not. *)
Definition hub1 : Realtime.hub :=
  snd (Realtime.on 1 (Realtime.JoinProject (VStr "p1")) ∅).

(** Two projects of "A", the second created after the first. *)
Definition older_project : Project :=
  mkProject "p1" (VStr "First") VUndefined "A" [mkMember "A" "owner"] VUndefined None 1.
Definition newer_project : Project :=
  mkProject "p2" (VStr "Second") VUndefined "A" [mkMember "A" "owner"] VUndefined None 2.
Definition store2 : Store := mkStore [older_project; newer_project] [] [] [] [].

End Examples.

(* ================================================================== *)
(** ** Basic facts *)
(* ================================================================== *)
Section JsFacts.
Import Js.

Lemma truthy_VStr (v : value) :
  truthy v = true -> exists s, v = VStr s /\ s <> EmptyString.
Proof.
  destruct v as [| |s]; simpl; try discriminate.
  intros H. exists s. split; [reflexivity|].
  intros ->. discriminate.
Qed.

Lemma or_else_idem (a b : value) : or_else a (or_else a b) = or_else a b.
Proof. unfold or_else. destruct (truthy a); reflexivity. Qed.

Lemma if_defined_idem (a b : value) : if_defined a (if_defined a b) = if_defined a b.
Proof. destruct a; reflexivity. Qed.

Lemma trim_start_no_leading_space (s : string) : no_leading_space (trim_start s).
Proof.
  induction s as [|c s IH]; simpl; [exact I|].
  destruct (is_space c) eqn:E; [exact IH|exact E].
Qed.

Lemma trim_start_fixed (s : string) : no_leading_space s -> trim_start s = s.
Proof. destruct s as [|c s]; simpl; [reflexivity|]. intros ->. reflexivity. Qed.

Lemma trim_end_no_leading_space (s : string) :
  no_leading_space s -> no_leading_space (trim_end s).
Proof.
  destruct s as [|c s]; simpl; [exact id|].
  intros H. destruct (trim_end s); simpl; rewrite ?H; simpl; auto.
Qed.

Lemma trim_end_idem (s : string) : trim_end (trim_end s) = trim_end s.
Proof.
  induction s as [|c s IH]; simpl; [reflexivity|].
  destruct (trim_end s) as [|c' r] eqn:E.
  - destruct (is_space c) eqn:Ec; simpl; [reflexivity|]. rewrite Ec. reflexivity.
  - change (trim_end (String c (String c' r))) with
      (match trim_end (String c' r) with
       | EmptyString => if is_space c then EmptyString else String c EmptyString
       | x => String c x
       end).
    rewrite IH. reflexivity.
Qed.

Lemma trim_idem (s : string) : trim (trim s) = trim s.
Proof.
  unfold trim.
  rewrite (trim_start_fixed (trim_end (trim_start s))).
  - apply trim_end_idem.
  - apply trim_end_no_leading_space, trim_start_no_leading_space.
Qed.

Lemma trim_empty_stays (s : string) : trim s = EmptyString -> trim (trim s) = EmptyString.
Proof. intros H. rewrite trim_idem. exact H. Qed.

End JsFacts.

Section ModelFacts.
Import Js Model Access.

Lemma eqb_id_eq (a b : Id) : eqb_id a b = true <-> a = b.
Proof. unfold eqb_id. apply String.eqb_eq. Qed.

Lemma eqb_id_neq (a b : Id) : eqb_id a b = false <-> a <> b.
Proof. unfold eqb_id. apply String.eqb_neq. Qed.

Lemma findById_Some {D} (key : D -> Id) id coll d :
  findById key id coll = Some d -> key d = id /\ In d coll.
Proof.
  unfold findById. intros H. apply List.find_some in H as [Hin Heq].
  split; [by apply eqb_id_eq|exact Hin].
Qed.

Lemma findById_None {D} (key : D -> Id) id coll :
  findById key id coll = None -> forall d, In d coll -> key d <> id.
Proof.
  unfold findById. intros H d Hin. apply eqb_id_neq.
  exact (List.find_none _ _ H d Hin).
Qed.





End ModelFacts.

(* ================================================================== *)
(** ** Access to the sub-resources of a project *)
(* ================================================================== *)
Section AccessCheck.
Import Js Model Http Access Examples.


(** C1, evaluated on the code: "B" is listed in the members of the project
    of "A", so the specification's [canAccess] holds for "B"; yet the
    handlers that read the boards of the project, create a task in it and
    comment on one of its tasks all answer 403 to "B", and the stores are
    left as they were. *)
Theorem listed_member_is_forbidden :
  Spec.can_access "B" shared_project
  /\ Boards.list_by_project "B" "p1" store1 = (forbidden "Not authorized", store1)
  /\ Tasks.create "B" env1
       (Tasks.mkCreate (VStr "Fix") VUndefined VUndefined VUndefined VUndefined
          VUndefined (VStr "p1") VUndefined) store1
     = (forbidden "Not authorized", store1)
  /\ Comments.create "B" env1 (Comments.mkCreate (VStr "Hi") (VStr "t2")) store1
     = (forbidden "Not authorized", store1).
Proof.
  split.
  - right. exists (mkMember "B" "member"). split; [|reflexivity].
    simpl. right. left. reflexivity.
  - repeat split; reflexivity.
Qed.

End AccessCheck.

(* ================================================================== *)
(** ** Partial updates *)
(* ================================================================== *)
Section PartialUpdate.
Import Js Model Access Examples.




Lemma task_patch_twice (body : Tasks.update_body) (t : Task) :
  Tasks.patch body (Tasks.patch body t) = Tasks.patch body t.
Proof.
  unfold Tasks.patch. simpl.
  rewrite !or_else_idem, !if_defined_idem. reflexivity.
Qed.

Lemma board_patch_twice (body : Boards.update_body) (b : Board) :
  Boards.patch body (Boards.patch body b) = Boards.patch body b.
Proof.
  unfold Boards.patch. simpl.
  rewrite or_else_idem. f_equal.
  unfold or_else. destruct (truthy (Boards.ub_name body)) eqn:E.
  - destruct (Boards.ub_name body) as [| |s]; simpl; try discriminate.
    destruct (truthy (VStr s)); rewrite ?trim_idem; reflexivity.
  - destruct (b_name b) as [| |s]; simpl; try reflexivity.
    rewrite trim_idem. reflexivity.
Qed.

Lemma comment_patch_twice (content : value) (c : Comment) :
  Comments.patch content (Comments.patch content c) = Comments.patch content c.
Proof.
  unfold Comments.patch. simpl. rewrite or_else_idem. reflexivity.
Qed.

Lemma eqb_id_refl (a : Id) : eqb_id a a = true.
Proof. apply String.eqb_refl. Qed.

(** Saving a loaded document and reading it back. *)
Lemma findById_replace_doc {D} (key : D -> Id) (d x : D) (coll : list D) :
  findById key (key d) coll = Some x ->
  findById key (key d) (replace_doc key d coll) = Some d.
Proof.
  unfold findById, replace_doc.
  induction coll as [|y coll IH]; simpl; [discriminate|].
  destruct (eqb_id (key y) (key d)) eqn:E; simpl.
  - intros _. rewrite eqb_id_refl. reflexivity.
  - rewrite E. exact IH.
Qed.

(** Saving twice under the same identifier keeps the last document. *)
Lemma replace_doc_twice {D} (key : D -> Id) (d d' : D) (coll : list D) :
  key d' = key d ->
  replace_doc key d' (replace_doc key d coll) = replace_doc key d' coll.
Proof.
  intros Hk. unfold replace_doc. rewrite List.map_map. apply List.map_ext.
  intros y. rewrite Hk.
  destruct (eqb_id (key y) (key d)) eqn:E.
  - rewrite eqb_id_refl. reflexivity.
  - rewrite E. reflexivity.
Qed.

(** Repeating PUT /api/tasks/:id with the same payload leaves the tasks as
    the first request left them. *)
Lemma task_update_twice caller env env' id body st :
  tasks (snd (Tasks.update caller env' id body (snd (Tasks.update caller env id body st))))
  = tasks (snd (Tasks.update caller env id body st)).
Proof.
  unfold Tasks.update at 2 3.
  destruct (findById t_id id (tasks st)) as [task|] eqn:Ht; simpl;
    [|unfold Tasks.update; rewrite Ht; reflexivity].
  destruct (findById p_id (t_project task) (projects st)) as [project|] eqn:Hp; simpl;
    [|unfold Tasks.update; rewrite Ht, Hp; reflexivity].
  destruct (access_denied project caller) eqn:Ha; simpl;
    [unfold Tasks.update; rewrite Ht, Hp, Ha; reflexivity|].
  destruct (findById_Some _ _ _ _ Ht) as [Hid _].
  assert (Hst : forall s : Store,
             tasks (if Tasks.notifies_on_update (Tasks.ub_assignedTo body) task
                    then set_notifications s
                           (insert_doc
                              (Tasks.assignment_notification env (Tasks.ub_assignedTo body)
                                 (t_title task) (t_id task) (p_id project))
                              (notifications s))
                    else s) = tasks s
             /\ projects (if Tasks.notifies_on_update (Tasks.ub_assignedTo body) task
                          then set_notifications s
                                 (insert_doc
                                    (Tasks.assignment_notification env
                                       (Tasks.ub_assignedTo body)
                                       (t_title task) (t_id task) (p_id project))
                                    (notifications s))
                          else s) = projects s).
  { intros s. destruct (Tasks.notifies_on_update _ _); split; reflexivity. }
  destruct (Hst st) as [Htasks Hprojects]. rewrite Htasks.
  unfold Tasks.update. simpl. rewrite Hprojects.
  assert (Hfind : findById t_id id (replace_doc t_id (Tasks.patch body task) (tasks st))
                  = Some (Tasks.patch body task)).
  { rewrite <- Hid. apply (findById_replace_doc t_id (Tasks.patch body task) task).
    simpl. rewrite Hid. exact Ht. }
  rewrite Hfind. simpl. rewrite Hp, Ha. simpl.
  rewrite task_patch_twice.
  destruct (Tasks.notifies_on_update (Tasks.ub_assignedTo body) (Tasks.patch body task));
    destruct (Tasks.notifies_on_update (Tasks.ub_assignedTo body) task);
    simpl; apply replace_doc_twice; reflexivity.
Qed.

(** The same for PUT /api/boards/:id and PUT /api/comments/:id, which change
    nothing but the document: the whole store is as the first request left
    it. *)
Lemma board_update_twice caller id body st :
  snd (Boards.update caller id body (snd (Boards.update caller id body st)))
  = snd (Boards.update caller id body st).
Proof.
  unfold Boards.update at 2 3.
  destruct (findById b_id id (boards st)) as [board|] eqn:Hb; simpl;
    [|unfold Boards.update; rewrite Hb; reflexivity].
  destruct (findById p_id (b_project board) (projects st)) as [project|] eqn:Hp; simpl;
    [|unfold Boards.update; rewrite Hb, Hp; reflexivity].
  destruct (access_denied project caller) eqn:Ha; simpl;
    [unfold Boards.update; rewrite Hb, Hp, Ha; reflexivity|].
  destruct (Boards.valid (Boards.patch body board)) eqn:Hv; simpl;
    [|unfold Boards.update; rewrite Hb, Hp, Ha, Hv; reflexivity].
  destruct (findById_Some _ _ _ _ Hb) as [Hid _].
  unfold Boards.update. simpl.
  assert (Hfind : findById b_id id (replace_doc b_id (Boards.patch body board) (boards st))
                  = Some (Boards.patch body board)).
  { rewrite <- Hid. apply (findById_replace_doc b_id (Boards.patch body board) board).
    simpl. rewrite Hid. exact Hb. }
  rewrite Hfind. simpl. rewrite Hp, Ha. rewrite board_patch_twice, Hv. simpl.
  unfold set_boards. simpl. f_equal. apply replace_doc_twice. reflexivity.
Qed.

Lemma comment_update_twice caller id content st :
  snd (Comments.update caller id content (snd (Comments.update caller id content st)))
  = snd (Comments.update caller id content st).
Proof.
  unfold Comments.update at 2 3.
  destruct (findById c_id id (comments st)) as [comment|] eqn:Hc; simpl;
    [|unfold Comments.update; rewrite Hc; reflexivity].
  destruct (eqb_id (c_author comment) caller) eqn:Ha; simpl;
    [|unfold Comments.update; rewrite Hc, Ha; reflexivity].
  destruct (findById_Some _ _ _ _ Hc) as [Hid _].
  unfold Comments.update. simpl.
  assert (Hfind : findById c_id id
                    (replace_doc c_id (Comments.patch content comment) (comments st))
                  = Some (Comments.patch content comment)).
  { rewrite <- Hid.
    apply (findById_replace_doc c_id (Comments.patch content comment) comment).
    simpl. rewrite Hid. exact Hc. }
  rewrite Hfind. simpl. rewrite Ha. simpl. rewrite comment_patch_twice.
  unfold set_comments. simpl. f_equal. apply replace_doc_twice. reflexivity.
Qed.

(** C9.  The field assignments of the task, board and comment update
    handlers are idempotent: patching twice with the same payload gives the
    entity that patching once gives.  So are the handlers on the stored
    entities: a second identical request leaves the tasks (resp. the whole
    store, for boards and comments) as the first one left them. *)
Theorem patch_idempotent :
  (forall (body : Tasks.update_body) (t : Task),
      Tasks.patch body (Tasks.patch body t) = Tasks.patch body t)
  /\ (forall (body : Boards.update_body) (b : Board),
         Boards.patch body (Boards.patch body b) = Boards.patch body b)
  /\ (forall (content : value) (c : Comment),
         Comments.patch content (Comments.patch content c) = Comments.patch content c)
  /\ (forall caller env env' id body st,
         tasks (snd (Tasks.update caller env' id body
                       (snd (Tasks.update caller env id body st))))
         = tasks (snd (Tasks.update caller env id body st)))
  /\ (forall caller id body st,
         snd (Boards.update caller id body (snd (Boards.update caller id body st)))
         = snd (Boards.update caller id body st))
  /\ (forall caller id content st,
         snd (Comments.update caller id content
                (snd (Comments.update caller id content st)))
         = snd (Comments.update caller id content st)).
Proof.
  repeat apply conj.
  - exact task_patch_twice.
  - exact board_patch_twice.
  - exact comment_patch_twice.
  - exact task_update_twice.
  - exact board_update_twice.
  - exact comment_update_twice.
Qed.

End PartialUpdate.

(* ================================================================== *)
(** ** Error kinds of the by-id handlers *)
(* ================================================================== *)
Section ErrorKinds.
Import Js Model Http Access Api.



(** POST /api/tasks, which is not a by-id handler, resolves its optional
    board only after the access check: the owner is told that the board does
    not exist, a caller who is refused is not. *)
Lemma missing_board_is_checked_after_access :
  Tasks.create "A" Examples.env1
    (Tasks.mkCreate (VStr "Fix") VUndefined VUndefined VUndefined VUndefined
       (VStr "b9") (VStr "p1") VUndefined) Examples.store1
  = (not_found "Board not found", Examples.store1)
  /\ Tasks.create "Z" Examples.env1
       (Tasks.mkCreate (VStr "Fix") VUndefined VUndefined VUndefined VUndefined
          (VStr "b9") (VStr "p1") VUndefined) Examples.store1
     = (forbidden "Not authorized", Examples.store1).
Proof. split; reflexivity. Qed.

End ErrorKinds.

(* ================================================================== *)
(** ** Who may delete, who may edit a comment *)
(* ================================================================== *)
Section Ownership.
Import Js Model Http Access Examples.

Lemma findById_delete_doc {D} (key : D -> Id) (id : Id) (coll : list D) :
  findById key id (delete_doc key id coll) = None.
Proof.
  unfold findById, delete_doc.
  induction coll as [|d coll IH]; simpl; [reflexivity|].
  destruct (eqb_id (key d) id) eqn:E; simpl; [exact IH|].
  rewrite E. exact IH.
Qed.





(** Deleting a task leaves its comments in place; the delete handler of a
    comment then fails on reading [comment.task.project], for the author as
    for anybody else. *)
Lemma comment_of_deleted_task_cannot_be_deleted :
  fst (Tasks.delete "A" "t2" store1) = ok (Message "Task deleted successfully")
  /\ c_author first_comment = "B"
  /\ Comments.delete "B" "c1" (snd (Tasks.delete "A" "t2" store1))
     = (server_error, snd (Tasks.delete "A" "t2" store1)).
Proof. repeat split; reflexivity. Qed.

End Ownership.

(* ================================================================== *)
(** ** Projects *)
(* ================================================================== *)
Section ProjectHandlers.
Import Js Model Http Access Api Examples.

Lemma project_of_In comment st project :
  Comments.project_of comment st = Some project -> In project (projects st).
Proof.
  unfold Comments.project_of.
  destruct (findById t_id (c_task comment) (tasks st)); [|discriminate].
  intros H. exact (proj2 (findById_Some _ _ _ _ H)).
Qed.

Local Ltac read_handler :=
  repeat match goal with
         | |- context [findById ?k ?i ?c] =>
             let E := fresh "Hfind" in destruct (findById k i c) eqn:E; simpl
         | |- context [Comments.project_of ?c ?s] =>
             let E := fresh "Hproj" in destruct (Comments.project_of c s) eqn:E; simpl
         | |- context [access_denied ?p ?c] =>
             let E := fresh "Hacc" in destruct (access_denied p c) eqn:E; simpl
         end;
  try discriminate;
  intros _;
  match goal with
  | Hp : findById p_id _ (projects ?st) = Some ?p, Ha : access_denied ?p _ = false
    |- exists q, In q (projects ?st) /\ _ =>
      exists p; split; [exact (proj2 (findById_Some _ _ _ _ Hp))|exact Ha]
  | Hp : Comments.project_of _ ?st = Some ?p, Ha : access_denied ?p _ = false
    |- exists q, In q (projects ?st) /\ _ =>
      exists p; split; [exact (project_of_In _ _ _ Hp)|exact Ha]
  end.

(** C10.  GET /api/projects/:id answers 200 with the project whenever the
    project exists, whoever the caller is: the answer does not depend on
    the caller at all.  The read handlers of boards, tasks and comments,
    in contrast, answer 200 only to a caller who passes the access check on
    a project of the store. *)
Theorem any_caller_reads_any_project :
  (forall caller id st project,
      findById p_id id (projects st) = Some project ->
      Projects.get caller id st = (ok (OneProject project), st))
  /\ (forall caller caller' id st,
         Projects.get caller id st = Projects.get caller' id st)
  /\ (forall caller x st,
         (status (fst (Boards.list_by_project caller x st)) = 200
          \/ status (fst (Boards.get caller x st)) = 200
          \/ status (fst (Tasks.list_by_project caller x st)) = 200
          \/ status (fst (Tasks.list_by_board caller x st)) = 200
          \/ status (fst (Tasks.get caller x st)) = 200
          \/ status (fst (Comments.list_by_task caller x st)) = 200
          \/ status (fst (Comments.get caller x st)) = 200) ->
         exists project,
           In project (projects st) /\ access_denied project caller = false).
Proof.
  split; [|split].
  - intros caller id st project H. unfold Projects.get. rewrite H. reflexivity.
  - intros. reflexivity.
  - intros caller x st.
    intros [H|[H|[H|[H|[H|[H|H]]]]]]; revert H.
    + unfold Boards.list_by_project. read_handler.
    + unfold Boards.get. read_handler.
    + unfold Tasks.list_by_project. read_handler.
    + unfold Tasks.list_by_board. read_handler.
    + unfold Tasks.get. read_handler.
    + unfold Comments.list_by_task. read_handler.
    + unfold Comments.get. read_handler.
Qed.

Lemma any_caller_reads_any_project_witness :
  Projects.get "Z" "p1" store1 = (ok (OneProject shared_project), store1)
  /\ access_denied shared_project "Z" = true.
Proof.
  split; [|reflexivity].
  apply (proj1 any_caller_reads_any_project "Z" "p1" store1 shared_project).
  reflexivity.
Defined.

Lemma update_one_In {D} (matches : D -> bool) (change : D -> D) coll d :
  In d (update_one matches change coll) ->
  In d coll \/ exists d0, In d0 coll /\ d = change d0.
Proof.
  induction coll as [|x coll IH]; simpl; [tauto|].
  destruct (matches x); simpl.
  - intros [<-|H]; [right; exists x; auto|auto].
  - intros [<-|H]; [auto|].
    destruct (IH H) as [?|(d0 & ? & ?)]; [auto|right; exists d0; auto].
Qed.

Lemma delete_one_In {D} (matches : D -> bool) coll (d : D) :
  In d (delete_one matches coll) -> In d coll.
Proof.
  induction coll as [|x coll IH]; simpl; [tauto|].
  destruct (matches x); simpl; [auto|]. intros [<-|H]; auto.
Qed.

(** The update document has no [owner] and no [members] path. *)
Lemma update_one_keeps_owner_members omit body matches coll :
  List.map (fun p => (p_id p, p_owner p, p_members p))
    (update_one matches (Projects.apply_update omit body) coll)
  = List.map (fun p => (p_id p, p_owner p, p_members p)) coll.
Proof.
  induction coll as [|x coll IH]; simpl; [reflexivity|].
  destruct (matches x); simpl; [reflexivity|]. rewrite IH. reflexivity.
Qed.

Lemma handle_projects caller r st :
  projects (snd (handle caller r st)) = projects st
  \/ (exists env body, r = PostProject env body)
  \/ (exists omit id body, r = PutProject omit id body)
  \/ (exists id, r = DeleteProject id).
Proof.
  destruct r as [h id| | | | | | | | | | | | | | | | |];
    try (right; eauto 10; fail); left; [destruct h|..]; simpl;
    unfold Boards.get, Boards.update, Boards.delete, Boards.create,
      Boards.list_by_project,
      Tasks.get, Tasks.update, Tasks.delete, Tasks.create,
      Tasks.list_by_project, Tasks.list_by_board,
      Comments.get, Comments.update, Comments.delete, Comments.create,
      Comments.list_by_task,
      Notifications.get, Notifications.read, Notifications.delete,
      Notifications.list_for_caller, Notifications.unread, Notifications.count,
      Notifications.read_all, Notifications.delete_all,
      Projects.list_for_caller, Projects.get, find_ref;
    repeat match goal with
           | |- context [match ?v with VUndefined => _ | _ => _ end] => destruct v
           | |- context [findById ?k ?i ?c] => destruct (findById k i c); simpl
           | |- context [Comments.project_of ?c ?s] =>
               destruct (Comments.project_of c s); simpl
           | |- context [if ?b then _ else _] => destruct b; simpl
           end;
    reflexivity.
Qed.

Lemma handle_keeps_owner_listed caller r st :
  Forall Spec.owner_listed (projects st) ->
  Forall Spec.owner_listed (projects (snd (handle caller r st))).
Proof.
  intros Hinv.
  destruct (handle_projects caller r st)
    as [->|[(env & body & ->)|[(omit & id & body & ->)|(id & ->)]]];
    [exact Hinv|..]; simpl.
  - apply Forall_app. split; [exact Hinv|].
    constructor; [|constructor]. unfold Spec.owner_listed. simpl. left. reflexivity.
  - unfold Projects.update.
    destruct (find (Projects.owned_by caller id) (projects st)) as [found|];
      simpl; [|exact Hinv].
    rewrite List.Forall_forall in *. intros p Hp.
    apply update_one_In in Hp as [Hp|(p0 & Hp0 & ->)]; [auto|].
    exact (Hinv p0 Hp0).
  - unfold Projects.delete.
    destruct (find (Projects.owned_by caller id) (projects st)) as [found|];
      simpl; [|exact Hinv].
    rewrite List.Forall_forall in *. intros p Hp.
    apply delete_one_In in Hp. auto.
Qed.

(** C7.  In every store the handlers can reach from the empty one, the
    owner of each project is listed in its members with the role "owner".
    Creating a project as [caller] adds a project owned by [caller] whose
    members are exactly [{ user: caller, role: "owner" }], and the update
    handler leaves the owner and the members of every project as they
    were. *)
Theorem owner_is_member_with_role_owner :
  (forall st, reachable st ->
              forall p, In p (projects st) ->
                        In (mkMember (p_owner p) "owner") (p_members p))
  /\ (forall caller env body st,
         exists project,
           Projects.create caller env body st
           = (created (OneProject project),
              set_projects st (projects st ++ [project]))
           /\ p_owner project = caller
           /\ p_members project = [mkMember caller "owner"])
  /\ (forall omit caller id body st,
         List.map (fun p => (p_id p, p_owner p, p_members p))
           (projects (snd (Projects.update omit caller id body st)))
         = List.map (fun p => (p_id p, p_owner p, p_members p)) (projects st)).
Proof.
  split; [|split].
  - intros st Hreach.
    assert (Hall : Forall Spec.owner_listed (projects st)).
    { induction Hreach as [|st caller r _ IH]; [constructor|].
      apply handle_keeps_owner_listed, IH. }
    rewrite List.Forall_forall in Hall. exact Hall.
  - intros caller env body st. eexists. split; [reflexivity|]. split; reflexivity.
  - intros omit caller id body st. unfold Projects.update.
    destruct (find (Projects.owned_by caller id) (projects st)); simpl; [|reflexivity].
    apply update_one_keeps_owner_members.
Qed.

Lemma owner_is_member_with_role_owner_witness :
  reachable (snd (handle "A" (PostProject env1 demo_body) empty_store))
  /\ In (mkProject "x1" (VStr "Demo") VUndefined "A" [mkMember "A" "owner"]
           VUndefined None 10)
        (projects (snd (handle "A" (PostProject env1 demo_body) empty_store)))
  /\ In (mkMember "A" "owner") [mkMember "A" "owner"].
Proof.
  assert (Hreach : reachable (snd (handle "A" (PostProject env1 demo_body) empty_store)))
    by (apply reach_step; apply reach_empty).
  assert (Hin : In (mkProject "x1" (VStr "Demo") VUndefined "A" [mkMember "A" "owner"]
                      VUndefined None 10)
                   (projects (snd (handle "A" (PostProject env1 demo_body) empty_store))))
    by (simpl; left; reflexivity).
  split; [exact Hreach|]. split; [exact Hin|].
  exact (proj1 owner_is_member_with_role_owner _ Hreach _ Hin).
Defined.

End ProjectHandlers.

(* ================================================================== *)
(** ** The notification emitter *)
(* ================================================================== *)
Section Emitter.
Import Js Model Http Access Api Examples.

(** C2 as stated fails: "A" updates a task that has no assignee and sets
    [assignedTo] to "B", a value different from the caller and from the
    previous assignee; the update succeeds and no notification is
    created. *)
Lemma first_assignment_by_update_is_silent :
  Spec.reassignment_trigger (VStr "B") "A" (t_assignedTo open_task)
  /\ findById t_id "t1" (tasks store1) = Some open_task
  /\ status (fst (Tasks.update "A" env1 "t1" assign_to_B store1)) = 200
  /\ notifications (snd (Tasks.update "A" env1 "t1" assign_to_B store1))
     = notifications store1.
Proof.
  split; [|repeat split; reflexivity].
  split; [reflexivity|]. split; discriminate.
Qed.

(** The update handler does not look at the caller: "A" taking over the
    task of "B" is notified of the own assignment. *)
Lemma self_reassignment_notifies_caller :
  notifications (snd (Tasks.update "A" env1 "t2" assign_to_A store1))
  = (notifications store1
       ++ [mkNotification "x2" "A" task_assigned
             "You have been assigned to task: Write tests" "t2" "p1" false 10])%list.
Proof. reflexivity. Qed.

Lemma handle_notifications_length caller r st :
  emits r = false ->
  length (notifications (snd (handle caller r st))) <= length (notifications st).
Proof.
  destruct r as [h id| | | | | | | | | | | | | | | | |];
    [destruct h|..]; simpl; try discriminate; intros _;
    unfold Boards.get, Boards.update, Boards.delete, Boards.create,
      Boards.list_by_project,
      Tasks.get, Tasks.delete, Tasks.list_by_project, Tasks.list_by_board,
      Comments.get, Comments.update, Comments.delete, Comments.list_by_task,
      Notifications.get, Notifications.read, Notifications.delete,
      Notifications.list_for_caller, Notifications.unread, Notifications.count,
      Notifications.read_all, Notifications.delete_all,
      Projects.list_for_caller, Projects.get, Projects.create, Projects.update,
      Projects.delete, find_ref, replace_doc, delete_doc;
    repeat match goal with
           | |- context [match ?v with VUndefined => _ | _ => _ end] => destruct v
           | |- context [findById ?k ?i ?c] => destruct (findById k i c); simpl
           | |- context [find ?f ?c] => destruct (find f c); simpl
           | |- context [Comments.project_of ?c ?s] =>
               destruct (Comments.project_of c s); simpl
           | |- context [if ?b then _ else _] => destruct b; simpl
           end;
    rewrite ?List.length_map; auto using List.filter_length_le.
Qed.

(** C2, amended.  A successful task creation adds exactly one
    [task_assigned] notification for the assignee when [assignedTo] is
    given and differs from the caller, and none otherwise.  A successful
    task update adds exactly one [task_assigned] notification for the new
    assignee when [assignedTo] is given, the task already has an assignee,
    the two differ and the new one is not the caller; it adds none when
    [assignedTo] is missing or empty, when the task has no assignee yet,
    or when the assignee stays the same.  A successful comment creation
    adds exactly one [comment_added] notification for the assignee of the
    task when there is one and it is not the author, and none otherwise.
    A request that fails adds none, and no other handler ever adds a
    notification. *)
Theorem emitter_triggers :
  (* POST /api/tasks *)
  (forall caller env body st,
      let r := Tasks.create caller env body st in
      let a := Tasks.cb_assignedTo body in
      (status (fst r) = 201 -> truthy a = true -> template a <> caller ->
       exists n, notifications (snd r) = (notifications st ++ [n])%list
                 /\ n_user n = template a /\ n_type n = task_assigned)
      /\ (status (fst r) <> 201 \/ truthy a = false \/ template a = caller ->
          notifications (snd r) = notifications st))
  (* PUT /api/tasks/:id *)
  /\ (forall caller env id body st task,
         findById t_id id (tasks st) = Some task ->
         let r := Tasks.update caller env id body st in
         let a := Tasks.ub_assignedTo body in
         let previous := t_assignedTo task in
         (status (fst r) = 200 -> truthy a = true -> truthy previous = true ->
          template a <> template previous -> template a <> caller ->
          exists n, notifications (snd r) = (notifications st ++ [n])%list
                    /\ n_user n = template a /\ n_type n = task_assigned)
         /\ (status (fst r) <> 200 \/ truthy a = false \/ truthy previous = false
             \/ template a = template previous ->
             notifications (snd r) = notifications st))
  /\ (forall caller env id body st,
         findById t_id id (tasks st) = None ->
         notifications (snd (Tasks.update caller env id body st)) = notifications st)
  (* POST /api/comments *)
  /\ (forall caller env body st task,
         find_ref t_id (Comments.cb_taskId body) (tasks st) = Some task ->
         let r := Comments.create caller env body st in
         let assignee := t_assignedTo task in
         (status (fst r) = 201 -> truthy assignee = true -> template assignee <> caller ->
          exists n, notifications (snd r) = (notifications st ++ [n])%list
                    /\ n_user n = template assignee /\ n_type n = comment_added)
         /\ (status (fst r) <> 201 \/ truthy assignee = false
             \/ template assignee = caller ->
             notifications (snd r) = notifications st))
  /\ (forall caller env body st,
         find_ref t_id (Comments.cb_taskId body) (tasks st) = None ->
         notifications (snd (Comments.create caller env body st)) = notifications st)
  (* every other route *)
  /\ (forall caller r st,
         emits r = false ->
         length (notifications (snd (handle caller r st))) <= length (notifications st)).
Proof.
  repeat apply conj.
  - intros caller env body st. cbv zeta. unfold Tasks.create, Tasks.notifies_on_create.
    destruct (find_ref p_id (Tasks.cb_projectId body) (projects st)) as [project|];
      simpl; [|split; [discriminate|reflexivity]].
    destruct (access_denied project caller); simpl; [split; [discriminate|reflexivity]|].
    match goal with
    | |- context [if ?b then (not_found _, _) else _] => destruct b; simpl
    end; [split; [discriminate|reflexivity]|].
    split.
    + intros _ Ha Hne. rewrite Ha. apply String.eqb_neq in Hne. rewrite Hne. simpl.
      eexists. split; [reflexivity|]. split; reflexivity.
    + intros [H|[H|H]]; [congruence| |].
      * rewrite H. reflexivity.
      * apply String.eqb_eq in H. rewrite H. rewrite andb_false_r. reflexivity.
  - intros caller env id body st task Ht. cbv zeta.
    unfold Tasks.update, Tasks.notifies_on_update. rewrite Ht.
    destruct (findById p_id (t_project task) (projects st)) as [project|];
      simpl; [|split; [discriminate|reflexivity]].
    destruct (access_denied project caller); simpl; [split; [discriminate|reflexivity]|].
    split.
    + intros _ Ha Hp Hne _. rewrite Ha, Hp. apply String.eqb_neq in Hne.
      rewrite Hne. simpl. eexists. split; [reflexivity|]. split; reflexivity.
    + intros [H|[H|[H|H]]]; [congruence| | |].
      * rewrite H. reflexivity.
      * rewrite H. rewrite andb_false_r. reflexivity.
      * apply String.eqb_eq in H. rewrite H. rewrite andb_false_r. reflexivity.
  - intros caller env id body st Ht. unfold Tasks.update. rewrite Ht. reflexivity.
  - intros caller env body st task Ht. cbv zeta.
    unfold Comments.create, Comments.notifies. rewrite Ht.
    destruct (findById p_id (t_project task) (projects st)) as [project|];
      simpl; [|split; [discriminate|reflexivity]].
    destruct (access_denied project caller); simpl; [split; [discriminate|reflexivity]|].
    split.
    + intros _ Ha Hne. rewrite Ha. apply String.eqb_neq in Hne. rewrite Hne. simpl.
      eexists. split; [reflexivity|]. split; reflexivity.
    + intros [H|[H|H]]; [congruence| |].
      * rewrite H. reflexivity.
      * apply String.eqb_eq in H. rewrite H. rewrite andb_false_r. reflexivity.
  - intros caller env body st Ht. unfold Comments.create. rewrite Ht. reflexivity.
  - exact handle_notifications_length.
Qed.

Lemma emitter_triggers_witness :
  (exists n, notifications (snd (Tasks.create "A" env1 task_for_B store1))
             = (notifications store1 ++ [n])%list
             /\ n_user n = "B" /\ n_type n = task_assigned)
  /\ (exists n, notifications (snd (Comments.create "A" env1 comment_on_t2 store1))
                = (notifications store1 ++ [n])%list
                /\ n_user n = "B" /\ n_type n = comment_added)
  /\ notifications (snd (Tasks.update "A" env1 "t1" assign_to_B store1))
     = notifications store1.
Proof.
  destruct emitter_triggers as (Hcreate & Hupdate & _ & Hcomment & _).
  split; [|split].
  - apply (proj1 (Hcreate "A" env1 task_for_B store1));
      [reflexivity|reflexivity|discriminate].
  - apply (proj1 (Hcomment "A" env1 comment_on_t2 store1 assigned_task eq_refl));
      [reflexivity|reflexivity|discriminate].
  - apply (proj2 (Hupdate "A" env1 "t1" assign_to_B store1 open_task eq_refl)).
    right. right. left. reflexivity.
Defined.

End Emitter.

(* ================================================================== *)
(** ** List handlers *)
(* ================================================================== *)
Section Listing.
Import Js Model Http Access Api Examples.

#[local] Instance newer_first_total {D} (created : D -> nat) :
  Total (newer_first created).
Proof. intros x y. unfold newer_first. lia. Qed.

#[local] Instance newer_first_trans {D} (created : D -> nat) :
  Transitive (newer_first created).
Proof. intros x y z. unfold newer_first. lia. Qed.

Lemma sort_desc_sorted {D} (created : D -> nat) (l : list D) :
  Spec.newest_first created (sort_desc created l).
Proof. apply Sorted_merge_sort. apply _. Qed.

Lemma sort_desc_perm {D} (created : D -> nat) (l : list D) :
  sort_desc created l ≡ₚ l.
Proof. apply merge_sort_Permutation. Qed.

Lemma sort_desc_strongly {D} (created : D -> nat) (l : list D) :
  StronglySorted (newer_first created) (sort_desc created l).
Proof. apply StronglySorted_merge_sort; apply _. Qed.

(** What [.sort({ createdAt: -1 }).limit(n)] returns. *)
Lemma limit_sort_desc {D} (created : D -> nat) (n : nat) (l : list D) :
  let page := limit n (sort_desc created l) in
  length page <= n
  /\ Spec.newest_first created page
  /\ (forall x, In x page -> In x l)
  /\ (forall x y, In x l -> ~ In x page -> In y page -> created x <= created y)
  /\ (length l <= n -> page ≡ₚ l).
Proof.
  cbv zeta. unfold limit.
  pose proof (sort_desc_strongly created l) as Hs.
  pose proof (sort_desc_perm created l) as Hp.
  set (all := sort_desc created l) in *.
  rewrite <- (firstn_skipn n all) in Hs.
  repeat apply conj.
  - apply firstn_le_length.
  - apply StronglySorted_Sorted. exact (StronglySorted_app_1_l _ _ _ Hs).
  - intros x Hx. apply (Permutation_in x Hp).
    rewrite <- (firstn_skipn n all). apply in_or_app. left. exact Hx.
  - intros x y Hx Hnot Hy.
    apply (Permutation_in x (Permutation_sym Hp)) in Hx.
    rewrite <- (firstn_skipn n all) in Hx.
    apply in_app_or in Hx as [Hx|Hx]; [contradiction|].
    apply (StronglySorted_app_1_elem_of _ _ _ y x Hs); by apply list_elem_of_In.
  - intros Hlen. rewrite firstn_all2; [exact Hp|].
    rewrite (Permutation_length Hp). exact Hlen.
Qed.

(** C8 as stated fails for GET /api/projects.  "A" creates the project
    "First" and later the project "Second"; the listing returns them oldest
    first. *)
Lemma project_listing_is_not_newest_first :
  snd (handle "A" (PostProject (mkEnv 2 "p2" "n2") (Projects.mkCreate (VStr "Second") VUndefined None))
         (snd (handle "A" (PostProject (mkEnv 1 "p1" "n1")
                             (Projects.mkCreate (VStr "First") VUndefined None))
                 empty_store)))
  = store2
  /\ Projects.list_for_caller "A" store2
     = (ok (ProjectList [older_project; newer_project]), store2)
  /\ ~ Spec.newest_first p_createdAt [older_project; newer_project].
Proof.
  split; [reflexivity|]. split; [reflexivity|].
  unfold Spec.newest_first. intros H.
  apply Sorted_inv in H as [_ H]. apply HdRel_inv in H.
  unfold newer_first in H. simpl in H. lia.
Qed.

(** C8, amended.  The listings of boards, tasks, comments and unread
    notifications return all the entities that match their scope filter,
    newest first.  The notification listing returns at most 50 notifications
    of the caller, newest first, none of them older than a notification of
    the caller it leaves out, and all of them when there are no more than
    50.  The project listing returns all the projects the caller owns or is
    a member of, in the order of the collection, without sorting. *)
Theorem listings_newest_first :
  (forall caller projectId st l,
      fst (Boards.list_by_project caller projectId st) = ok (BoardList l) ->
      Spec.newest_first b_createdAt l
      /\ l ≡ₚ List.filter (fun b => eqb_id (b_project b) projectId) (boards st))
  /\ (forall caller projectId st l,
         fst (Tasks.list_by_project caller projectId st) = ok (TaskList l) ->
         Spec.newest_first t_createdAt l
         /\ l ≡ₚ List.filter (fun t => eqb_id (t_project t) projectId) (tasks st))
  /\ (forall caller boardId st l,
         fst (Tasks.list_by_board caller boardId st) = ok (TaskList l) ->
         Spec.newest_first t_createdAt l
         /\ length l
            = length (List.filter
                        (fun t => match t_board t with
                                  | VStr b => eqb_id b boardId
                                  | _ => false
                                  end) (tasks st))
         /\ forall t, In t l <-> In t (tasks st) /\ t_board t = VStr boardId)
  /\ (forall caller taskId st l,
         fst (Comments.list_by_task caller taskId st) = ok (CommentList l) ->
         Spec.newest_first c_createdAt l
         /\ l ≡ₚ List.filter (fun c => eqb_id (c_task c) taskId) (comments st))
  /\ (forall caller st,
         exists l,
           Notifications.unread caller st = (ok (NotificationList l), st)
           /\ Spec.newest_first n_createdAt l
           /\ l ≡ₚ List.filter (Notifications.unread_of_user caller) (notifications st))
  /\ (forall caller st,
         exists l,
           Notifications.list_for_caller caller st = (ok (NotificationList l), st)
           /\ length l <= 50
           /\ Spec.newest_first n_createdAt l
           /\ (forall n, In n l -> In n (notifications st) /\ n_user n = caller)
           /\ (forall n m, In n (notifications st) -> n_user n = caller ->
                           ~ In n l -> In m l -> n_createdAt n <= n_createdAt m)
           /\ (length (List.filter (Notifications.of_user caller) (notifications st)) <= 50 ->
               l ≡ₚ List.filter (Notifications.of_user caller) (notifications st)))
  /\ (forall caller st,
         Projects.list_for_caller caller st
         = (ok (ProjectList (List.filter (Projects.in_scope caller) (projects st))), st)
         /\ forall p, In p (List.filter (Projects.in_scope caller) (projects st)) <->
                      In p (projects st)
                      /\ (p_owner p = caller
                          \/ exists m, In m (p_members p) /\ m_user m = caller)).
Proof.
  repeat apply conj.
  - intros caller projectId st l. unfold Boards.list_by_project.
    destruct (findById p_id projectId (projects st)); simpl; [|discriminate].
    destruct (access_denied _ _); simpl; [discriminate|].
    intros [= <-]. split; [apply sort_desc_sorted|apply sort_desc_perm].
  - intros caller projectId st l. unfold Tasks.list_by_project.
    destruct (findById p_id projectId (projects st)); simpl; [|discriminate].
    destruct (access_denied _ _); simpl; [discriminate|].
    intros [= <-]. split; [apply sort_desc_sorted|apply sort_desc_perm].
  - intros caller boardId st l. unfold Tasks.list_by_board.
    destruct (findById b_id boardId (boards st)) as [board|]; simpl; [|discriminate].
    destruct (findById p_id (b_project board) (projects st)); simpl; [|discriminate].
    destruct (access_denied _ _); simpl; [discriminate|].
    intros [= <-]. split; [apply sort_desc_sorted|].
    split; [apply Permutation_length, sort_desc_perm|].
    intros t. split.
    + intros Hin. apply (Permutation_in t (sort_desc_perm _ _)) in Hin.
      apply List.filter_In in Hin as [Hin Hb]. split; [exact Hin|].
      destruct (t_board t) as [| |b]; try discriminate.
      apply eqb_id_eq in Hb. congruence.
    + intros [Hin Hb].
      apply (Permutation_in t (Permutation_sym (sort_desc_perm _ _))).
      apply List.filter_In. split; [exact Hin|]. rewrite Hb. by apply eqb_id_eq.
  - intros caller taskId st l. unfold Comments.list_by_task.
    destruct (findById t_id taskId (tasks st)) as [task|]; simpl; [|discriminate].
    destruct (findById p_id (t_project task) (projects st)); simpl; [|discriminate].
    destruct (access_denied _ _); simpl; [discriminate|].
    intros [= <-]. split; [apply sort_desc_sorted|apply sort_desc_perm].
  - intros caller st. eexists. split; [reflexivity|].
    split; [apply sort_desc_sorted|apply sort_desc_perm].
  - intros caller st. eexists. split; [reflexivity|].
    destruct (limit_sort_desc n_createdAt 50
                (List.filter (Notifications.of_user caller) (notifications st)))
      as (Hlen & Hsorted & Hin & Hrecent & Hall).
    split; [exact Hlen|]. split; [exact Hsorted|].
    split; [|split; [|exact Hall]].
    + intros n Hn. apply Hin in Hn. apply List.filter_In in Hn as [Hn Hu].
      split; [exact Hn|]. by apply eqb_id_eq.
    + intros n m Hn Hu. apply Hrecent. apply List.filter_In.
      split; [exact Hn|]. by apply eqb_id_eq.
  - intros caller st. split; [reflexivity|].
    intros p. rewrite List.filter_In. unfold Projects.in_scope.
    rewrite orb_true_iff, existsb_exists.
    split; intros [Hin Hs]; (split; [exact Hin|]).
    + destruct Hs as [Hs|(m & Hm & Hs)]; [left|right; exists m; split; [exact Hm|]];
        by apply eqb_id_eq.
    + destruct Hs as [Hs|(m & Hm & Hs)]; [left|right; exists m; split; [exact Hm|]];
        by apply eqb_id_eq.
Qed.

Lemma listings_newest_first_witness :
  Spec.newest_first t_createdAt [assigned_task; open_task]
  /\ [assigned_task; open_task]
     ≡ₚ List.filter (fun t => eqb_id (t_project t) "p1") (tasks store1).
Proof.
  apply (proj1 (proj2 listings_newest_first) "A" "p1" store1 [assigned_task; open_task]).
  reflexivity.
Defined.

End Listing.

(* ================================================================== *)
(** ** Realtime fan-out *)
(* ================================================================== *)
Section Fanout.
Import Js Realtime Examples.

Lemma elem_of_emit_to room ev d h dl :
  dl ∈ emit_to room ev d h <->
  recipient dl ∈ joined room h /\ event dl = ev /\ data dl = d.
Proof.
  unfold emit_to. rewrite list_elem_of_fmap. split.
  - intros (t & -> & Ht). apply elem_of_elements in Ht. simpl. auto.
  - intros (Ht & Hev & Hd). exists (recipient dl). split.
    + destruct dl; simpl in *; congruence.
    + by apply elem_of_elements.
Qed.

Lemma emit_to_NoDup room ev d h : NoDup (emit_to room ev d h).
Proof.
  unfold emit_to. apply NoDup_fmap_2_strong; [|apply NoDup_elements].
  intros x y _ _ [= ->]. reflexivity.
Qed.

Lemma joined_after_join s room h : s ∈ joined room (join s room h).
Proof.
  unfold joined at 1, join. rewrite lookup_insert_eq. simpl.
  apply elem_of_union_l, elem_of_singleton. reflexivity.
Qed.

(** C4 as stated fails: socket 1 has joined the room of project "p1" and
    publishes [task-updated] for it; one of the deliveries goes back to
    socket 1. *)
Lemma publisher_receives_own_event :
  ~ Spec.excludes_publisher 1 (fst (on 1 (TaskUpdated task_event) hub1)).
Proof.
  intros H. apply (H (mkDelivery 1 "task-update" task_event)); [|reflexivity].
  simpl. apply elem_of_emit_to. simpl. split; [|split; reflexivity].
  apply joined_after_join.
Qed.

(** C4, amended.  A [task-updated] (resp. [comment-added]) event with
    payload [d], published by any socket [s], is delivered as
    [task-update] (resp. [new-comment]), with the payload unchanged and
    once each, to exactly the sockets that have joined the room of
    [d.projectId]: the publisher is among them when it has joined that
    room.  Nothing about the publisher is checked (the deliveries are the
    same for every publisher, joined or not), and the rooms do not
    change. *)
Theorem fanout_reaches_the_whole_room (s : SocketId) (d : payload) (h : hub) :
  (forall dl, dl ∈ fst (on s (TaskUpdated d) h) <->
              recipient dl ∈ joined (room_of (projectId d)) h
              /\ event dl = "task-update" /\ data dl = d)
  /\ (forall dl, dl ∈ fst (on s (CommentAdded d) h) <->
                 recipient dl ∈ joined (room_of (projectId d)) h
                 /\ event dl = "new-comment" /\ data dl = d)
  /\ NoDup (fst (on s (TaskUpdated d) h))
  /\ NoDup (fst (on s (CommentAdded d) h))
  /\ (forall s', on s' (TaskUpdated d) h = on s (TaskUpdated d) h)
  /\ (forall s', on s' (CommentAdded d) h = on s (CommentAdded d) h)
  /\ snd (on s (TaskUpdated d) h) = h
  /\ snd (on s (CommentAdded d) h) = h
  /\ s ∈ joined (room_of (projectId d)) (snd (on s (JoinProject (projectId d)) h)).
Proof.
  simpl. repeat apply conj; try reflexivity.
  - intros dl. apply elem_of_emit_to.
  - intros dl. apply elem_of_emit_to.
  - apply emit_to_NoDup.
  - apply emit_to_NoDup.
  - apply joined_after_join.
Qed.

End Fanout.


(* ================================================================== *)
(** ** What a request leaves alone *)
(* ================================================================== *)
Section Footprint.
Import Js Model Http Access Api Examples.





End Footprint.

(* ================================================================== *)
(** ** The notification box of a user *)
(* ================================================================== *)
Section Inbox.
Import Js Model Http Access Api Examples Notifications.

Lemma mark_read_twice (n : Notification) : mark_read (mark_read n) = mark_read n.
Proof. reflexivity. Qed.

Lemma read_all_leaves_no_unread caller (l : list Notification) :
  List.filter (unread_of_user caller)
    (List.map (fun n => if unread_of_user caller n then mark_read n else n) l) = [].
Proof.
  induction l as [|n l IH]; simpl; [reflexivity|].
  destruct (unread_of_user caller n) eqn:E.
  - unfold unread_of_user at 1. simpl. rewrite andb_false_r. exact IH.
  - rewrite E. exact IH.
Qed.

Lemma read_all_skips_others caller u (l : list Notification) :
  u <> caller ->
  List.filter (of_user u)
    (List.map (fun n => if unread_of_user caller n then mark_read n else n) l)
  = List.filter (of_user u) l.
Proof.
  intros Hne. induction l as [|n l IH]; simpl; [reflexivity|].
  destruct (unread_of_user caller n) eqn:E.
  - unfold unread_of_user in E. apply andb_true_iff in E as [E _].
    apply eqb_id_eq in E.
    assert (Hu : of_user u n = false).
    { apply eqb_id_neq. congruence. }
    assert (Hu' : of_user u (mark_read n) = false) by exact Hu.
    rewrite Hu, Hu'. exact IH.
  - rewrite IH. reflexivity.
Qed.

Lemma delete_all_skips_others caller u (l : list Notification) :
  u <> caller ->
  List.filter (of_user u) (List.filter (fun n => negb (of_user caller n)) l)
  = List.filter (of_user u) l.
Proof.
  intros Hne. induction l as [|n l IH]; simpl; [reflexivity|].
  destruct (of_user caller n) eqn:E; simpl.
  - apply eqb_id_eq in E.
    assert (Hu : of_user u n = false) by (apply eqb_id_neq; congruence).
    rewrite Hu. exact IH.
  - rewrite IH. reflexivity.
Qed.

Lemma delete_all_leaves_none caller (l : list Notification) :
  List.filter (of_user caller) (List.filter (fun n => negb (of_user caller n)) l) = [].
Proof.
  induction l as [|n l IH]; simpl; [reflexivity|].
  destruct (of_user caller n) eqn:E; simpl; [exact IH|]. rewrite E. exact IH.
Qed.

(** After PUT /api/notifications/read-all the caller has no unread
    notification left: the unread listing is empty and the unread count is 0.
    No notification is added or removed, and the notifications of every other
    user are exactly as before. *)
Theorem read_all_empties_unread (caller : Id) (st : Store) :
  fst (unread caller (snd (read_all caller st))) = ok (NotificationList [])
  /\ fst (count caller (snd (read_all caller st))) = ok (Count 0)
  /\ length (notifications (snd (read_all caller st))) = length (notifications st)
  /\ (forall u, u <> caller ->
                List.filter (of_user u) (notifications (snd (read_all caller st)))
                = List.filter (of_user u) (notifications st)).
Proof.
  unfold unread, count, read_all. simpl.
  rewrite read_all_leaves_no_unread. repeat split.
  - apply List.length_map.
  - intros u Hu. apply read_all_skips_others, Hu.
Qed.

Lemma read_all_empties_unread_witness :
  List.filter (of_user "A") (notifications (snd (read_all "B" store1)))
  = List.filter (of_user "A") (notifications store1).
Proof.
  apply (proj2 (proj2 (proj2 (read_all_empties_unread "B" store1))) "A").
  discriminate.
Defined.

(** After DELETE /api/notifications the listing of the caller is empty, and
    the notifications of every other user are exactly as before. *)
Theorem delete_all_empties_inbox (caller : Id) (st : Store) :
  fst (list_for_caller caller (snd (delete_all caller st))) = ok (NotificationList [])
  /\ (forall u, u <> caller ->
                List.filter (of_user u) (notifications (snd (delete_all caller st)))
                = List.filter (of_user u) (notifications st)).
Proof.
  unfold list_for_caller, delete_all. simpl.
  rewrite delete_all_leaves_none. split; [reflexivity|].
  intros u Hu. apply delete_all_skips_others, Hu.
Qed.

Lemma delete_all_empties_inbox_witness :
  List.filter (of_user "B") (notifications (snd (delete_all "A" store1)))
  = List.filter (of_user "B") (notifications store1).
Proof.
  apply (proj2 (delete_all_empties_inbox "A" store1) "B"). discriminate.
Defined.

(** GET /api/notifications/count answers the number of notifications that
    GET /api/notifications/unread lists. *)
Theorem count_is_length_of_unread (caller : Id) (st : Store) :
  exists l,
    fst (unread caller st) = ok (NotificationList l)
    /\ fst (count caller st) = ok (Count (length l)).
Proof.
  eexists. split; [reflexivity|]. unfold count. simpl.
  do 2 f_equal. symmetry. apply Permutation_length, merge_sort_Permutation.
Qed.

(** Marking a notification as read and reading it back: once its recipient
    has called PUT /api/notifications/:id/read, GET /api/notifications/:id
    shows the same notification with the read flag set, and a second call of
    the read route answers the same and changes nothing more. *)
Theorem read_then_get (caller id : Id) (st : Store) (n : Notification) :
  findById n_id id (notifications st) = Some n ->
  n_user n = caller ->
  read caller id st
  = (ok (OneNotification (mark_read n)), snd (read caller id st))
  /\ n_read (mark_read n) = true
  /\ get caller id (snd (read caller id st))
     = (ok (OneNotification (mark_read n)), snd (read caller id st))
  /\ read caller id (snd (read caller id st))
     = (ok (OneNotification (mark_read n)), snd (read caller id st)).
Proof.
  intros Hfind Huser.
  destruct (findById_Some _ _ _ _ Hfind) as [Hid _].
  assert (Hown : negb (eqb_id (n_user n) caller) = false).
  { apply negb_false_iff, eqb_id_eq, Huser. }
  assert (Hread : read caller id st
                  = (ok (OneNotification (mark_read n)),
                     set_notifications st
                       (replace_doc n_id (mark_read n) (notifications st)))).
  { unfold read. rewrite Hfind, Hown. reflexivity. }
  rewrite Hread. simpl.
  assert (Hagain : findById n_id id (replace_doc n_id (mark_read n) (notifications st))
                   = Some (mark_read n)).
  { rewrite <- Hid. apply (findById_replace_doc n_id (mark_read n) n).
    simpl. rewrite Hid. exact Hfind. }
  repeat split.
  - unfold get. simpl. rewrite Hagain. simpl. rewrite Hown. reflexivity.
  - unfold read. simpl. rewrite Hagain. simpl. rewrite Hown.
    unfold set_notifications. simpl. do 2 f_equal.
    apply replace_doc_twice. reflexivity.
Qed.

Lemma read_then_get_witness :
  get "B" "n1" (snd (read "B" "n1" store1))
  = (ok (OneNotification (mark_read first_notification)), snd (read "B" "n1" store1)).
Proof.
  apply (read_then_get "B" "n1" store1 first_notification); reflexivity.
Defined.

End Inbox.

(* ================================================================== *)
(** ** Joining rooms *)
(* ================================================================== *)
Section Rooms.
Import Js Realtime Examples.

Lemma room_of_inj (a b : value) : room_of a = room_of b <-> template a = template b.
Proof.
  unfold room_of. split; [|intros ->; reflexivity].
  simpl. intros H. injection H as H. exact H.
Qed.

Lemma joined_join (s t : SocketId) (room room' : string) (h : hub) :
  t ∈ joined room' (join s room h) <-> t ∈ joined room' h \/ (t = s /\ room' = room).
Proof.
  unfold joined at 1, join.
  destruct (decide (room = room')) as [<-|Hne].
  - rewrite lookup_insert_eq. simpl. rewrite elem_of_union, elem_of_singleton.
    split; [intros [->|H]; auto|intros [H|[-> _]]; auto].
  - rewrite lookup_insert_ne by exact Hne. fold (joined room' h).
    split; [auto|intros [H|[_ ->]]; [exact H|contradiction]].
Qed.

(** [join-project] followed by a publish.  After socket [s'] has joined the
    project [pid], an event for the project of [d] reaches the sockets that
    were in that room before and, when [pid] and [d.projectId] give the same
    room name, [s'] as well; joining another project changes nothing for
    this one.  The room name is built with a template literal, so a missing
    [projectId] and the string "undefined" name the same room. *)
Theorem join_then_publish (s s' : SocketId) (pid : value) (d : payload) (h : hub) :
  (forall dl,
      dl ∈ fst (on s (TaskUpdated d) (snd (on s' (JoinProject pid) h))) <->
      event dl = "task-update" /\ data dl = d
      /\ (recipient dl ∈ joined (room_of (projectId d)) h
          \/ (recipient dl = s' /\ template (projectId d) = template pid)))
  /\ (forall dl,
         dl ∈ fst (on s (CommentAdded d) (snd (on s' (JoinProject pid) h))) <->
         event dl = "new-comment" /\ data dl = d
         /\ (recipient dl ∈ joined (room_of (projectId d)) h
             \/ (recipient dl = s' /\ template (projectId d) = template pid)))
  /\ room_of VUndefined = room_of (VStr "undefined").
Proof.
  split; [|split; [|reflexivity]]; intros dl; simpl;
    rewrite elem_of_emit_to, joined_join, room_of_inj; tauto.
Qed.

End Rooms.

(* ================================================================== *)
(** ** Projects: ownership filter, listing, deletion *)
(* ================================================================== *)
Section ProjectLifecycle.
Import Js Model Http Access Api Examples.

Lemma owned_by_true caller id p :
  Projects.owned_by caller id p = true <-> p_id p = id /\ p_owner p = caller.
Proof.
  unfold Projects.owned_by. rewrite andb_true_iff, !eqb_id_eq. reflexivity.
Qed.

Lemma find_owned_Some caller id l p :
  find (Projects.owned_by caller id) l = Some p ->
  In p l /\ p_id p = id /\ p_owner p = caller.
Proof.
  intros H. apply List.find_some in H as [Hin Ho].
  split; [exact Hin|]. by apply owned_by_true.
Qed.

Lemma find_owned_None caller id l :
  find (Projects.owned_by caller id) l = None ->
  ~ exists p, In p l /\ p_id p = id /\ p_owner p = caller.
Proof.
  intros H (p & Hin & Hp).
  pose proof (List.find_none _ _ H p Hin) as Hf.
  apply owned_by_true in Hp. congruence.
Qed.

Lemma findById_absent {D} (key : D -> Id) (id : Id) (coll : list D) :
  (forall d, In d coll -> key d <> id) -> findById key id coll = None.
Proof.
  unfold findById. induction coll as [|x coll IH]; simpl; [reflexivity|].
  intros H. destruct (eqb_id (key x) id) eqn:E.
  - apply eqb_id_eq in E. exfalso. apply (H x); auto.
  - apply IH. intros d Hd. apply H. auto.
Qed.

Lemma unique_cons {D} (key : D -> Id) (x : D) (coll : list D) :
  Shape.unique key (x :: coll) ->
  (forall d, In d coll -> key d <> key x) /\ Shape.unique key coll.
Proof.
  unfold Shape.unique. simpl. intros H. apply NoDup_cons in H as [Hnot Hnd].
  split; [|exact Hnd]. intros d Hd Heq. apply Hnot. rewrite <- Heq.
  apply list_elem_of_In, List.in_map, Hd.
Qed.

(** With unique identifiers, the document [findOneAndUpdate] rewrites is the
    one a later [findById] returns. *)
Lemma findById_update_one caller id change l p :
  Shape.unique p_id l ->
  (forall q, p_id (change q) = p_id q) ->
  find (Projects.owned_by caller id) l = Some p ->
  findById p_id id (update_one (Projects.owned_by caller id) change l) = Some (change p).
Proof.
  intros Hu Hk. induction l as [|x l IH]; simpl; [discriminate|].
  apply unique_cons in Hu as [Hfresh Hu].
  destruct (Projects.owned_by caller id x) eqn:E.
  - intros [= <-]. apply owned_by_true in E as [E _].
    unfold findById. simpl. rewrite Hk. apply eqb_id_eq in E. rewrite E. reflexivity.
  - intros Hf. unfold findById. simpl.
    destruct (eqb_id (p_id x) id) eqn:Ex.
    + apply eqb_id_eq in Ex. destruct (find_owned_Some _ _ _ _ Hf) as (Hin & Hid & _).
      exfalso. apply (Hfresh p Hin). congruence.
    + apply (IH Hu Hf).
Qed.

(** With unique identifiers, the document [findOneAndDelete] removes is gone
    for [findById]. *)
Lemma findById_delete_one caller id l p :
  Shape.unique p_id l ->
  find (Projects.owned_by caller id) l = Some p ->
  findById p_id id (delete_one (Projects.owned_by caller id) l) = None.
Proof.
  intros Hu. induction l as [|x l IH]; simpl; [discriminate|].
  apply unique_cons in Hu as [Hfresh Hu].
  destruct (Projects.owned_by caller id x) eqn:E.
  - intros _. apply owned_by_true in E as [E _].
    apply findById_absent. intros d Hd. rewrite <- E. apply Hfresh, Hd.
  - intros Hf. unfold findById. simpl.
    destruct (eqb_id (p_id x) id) eqn:Ex.
    + apply eqb_id_eq in Ex. destruct (find_owned_Some _ _ _ _ Hf) as (Hin & Hid & _).
      exfalso. apply (Hfresh p Hin). congruence.
    + apply (IH Hu Hf).
Qed.

(** PUT and DELETE /api/projects/:id answer 200 exactly when a project with
    that identifier is owned by the caller.  In every other case (no such
    project, or a project of somebody else, member or not) they answer 404
    "Project not found or unauthorized" and change nothing: these two
    handlers never answer 403. *)
Theorem project_writes_need_owner :
  (forall omit caller id body st,
      (status (fst (Projects.update omit caller id body st)) = 200 <->
       exists p, In p (projects st) /\ p_id p = id /\ p_owner p = caller)
      /\ (status (fst (Projects.update omit caller id body st)) = 200
          \/ Projects.update omit caller id body st
             = (mkResponse 404 (Error "Project not found or unauthorized"), st)))
  /\ (forall caller id st,
         (status (fst (Projects.delete caller id st)) = 200 <->
          exists p, In p (projects st) /\ p_id p = id /\ p_owner p = caller)
         /\ (status (fst (Projects.delete caller id st)) = 200
             \/ Projects.delete caller id st
                = (mkResponse 404 (Error "Project not found or unauthorized"), st))).
Proof.
  split.
  - intros omit caller id body st. unfold Projects.update.
    destruct (find (Projects.owned_by caller id) (projects st)) as [p|] eqn:E; simpl.
    + split; [|left; reflexivity]. split; [|reflexivity].
      intros _. exists p. apply (find_owned_Some _ _ _ _ E).
    + split; [|right; reflexivity]. split; [discriminate|].
      intros H. destruct (find_owned_None _ _ _ E H).
  - intros caller id st. unfold Projects.delete.
    destruct (find (Projects.owned_by caller id) (projects st)) as [p|] eqn:E; simpl.
    + split; [|left; reflexivity]. split; [|reflexivity].
      intros _. exists p. apply (find_owned_Some _ _ _ _ E).
    + split; [|right; reflexivity]. split; [discriminate|].
      intros H. destruct (find_owned_None _ _ _ E H).
Qed.

(** Updating a project and reading it back.  When identifiers are unique
    and PUT /api/projects/:id has answered 200, GET /api/projects/:id shows
    the updated project, the one the update answered, to any caller. *)
Theorem project_update_then_get omit caller id body st :
  Shape.unique p_id (projects st) ->
  status (fst (Projects.update omit caller id body st)) = 200 ->
  exists p,
    In p (projects st) /\ p_id p = id /\ p_owner p = caller
    /\ fst (Projects.update omit caller id body st)
       = ok (OneProject (Projects.apply_update omit body p))
    /\ forall reader,
         Projects.get reader id (snd (Projects.update omit caller id body st))
         = (ok (OneProject (Projects.apply_update omit body p)),
            snd (Projects.update omit caller id body st)).
Proof.
  intros Hu. unfold Projects.update.
  destruct (find (Projects.owned_by caller id) (projects st)) as [p|] eqn:E; simpl;
    [|discriminate].
  intros _. exists p.
  destruct (find_owned_Some _ _ _ _ E) as (Hin & Hid & Ho).
  repeat split; try assumption.
  intros reader. unfold Projects.get. simpl.
  rewrite (findById_update_one caller id _ _ p Hu); [reflexivity| |exact E].
  intros q. reflexivity.
Qed.

Lemma project_update_then_get_witness :
  exists p,
    In p (projects store2) /\ p_id p = "p2" /\ p_owner p = "A"
    /\ fst (Projects.update true "A" "p2"
              (Projects.mkUpdate (VStr "Renamed") VUndefined VUndefined None) store2)
       = ok (OneProject
               (Projects.apply_update true
                  (Projects.mkUpdate (VStr "Renamed") VUndefined VUndefined None) p))
    /\ forall reader,
         Projects.get reader "p2"
           (snd (Projects.update true "A" "p2"
                   (Projects.mkUpdate (VStr "Renamed") VUndefined VUndefined None) store2))
         = (ok (OneProject
                  (Projects.apply_update true
                     (Projects.mkUpdate (VStr "Renamed") VUndefined VUndefined None) p)),
            snd (Projects.update true "A" "p2"
                   (Projects.mkUpdate (VStr "Renamed") VUndefined VUndefined None) store2)).
Proof.
  apply (project_update_then_get true "A" "p2"
           (Projects.mkUpdate (VStr "Renamed") VUndefined VUndefined None) store2).
  - unfold Shape.unique. simpl. apply NoDup_ListNoDup.
    repeat constructor; simpl; intuition discriminate.
  - reflexivity.
Defined.

(** A new project and the listings.  POST /api/projects puts the new project
    at the end of the listing of its creator and leaves the listing of
    every other user as it was. *)
Theorem created_project_is_listed caller env body st :
  (exists l project,
      fst (Projects.create caller env body st) = created (OneProject project)
      /\ fst (Projects.list_for_caller caller st) = ok (ProjectList l)
      /\ fst (Projects.list_for_caller caller (snd (Projects.create caller env body st)))
         = ok (ProjectList (l ++ [project])%list))
  /\ (forall u, u <> caller ->
                fst (Projects.list_for_caller u (snd (Projects.create caller env body st)))
                = fst (Projects.list_for_caller u st)).
Proof.
  unfold Projects.create, Projects.list_for_caller, insert_doc. simpl. split.
  - eexists. eexists. split; [reflexivity|]. split; [reflexivity|].
    rewrite List.filter_app. simpl. unfold Projects.in_scope at 2. simpl.
    rewrite eqb_id_refl. reflexivity.
  - intros u Hne. rewrite List.filter_app. simpl.
    unfold Projects.in_scope at 2. simpl.
    assert (E : eqb_id caller u = false) by (apply eqb_id_neq; congruence).
    rewrite E. simpl. rewrite app_nil_r. reflexivity.
Qed.

Lemma created_project_is_listed_witness :
  fst (Projects.list_for_caller "B" (snd (Projects.create "A" env1 demo_body store2)))
  = fst (Projects.list_for_caller "B" store2).
Proof.
  apply (proj2 (created_project_is_listed "A" env1 demo_body store2) "B").
  discriminate.
Defined.

(** Deleting a project does not cascade: its boards, tasks, comments and
    notifications all stay.  With unique identifiers, a task of the deleted
    project is from then on out of reach: reading, updating or deleting it
    answers 500 to every caller. *)
Theorem project_deletion_orphans_tasks caller id st :
  (boards (snd (Projects.delete caller id st)) = boards st
   /\ tasks (snd (Projects.delete caller id st)) = tasks st
   /\ comments (snd (Projects.delete caller id st)) = comments st
   /\ notifications (snd (Projects.delete caller id st)) = notifications st)
  /\ (Shape.unique p_id (projects st) ->
      status (fst (Projects.delete caller id st)) = 200 ->
      forall task, findById t_id (t_id task) (tasks st) = Some task ->
                   t_project task = id ->
                   forall reader env body,
                     fst (Tasks.get reader (t_id task) (snd (Projects.delete caller id st)))
                     = server_error
                     /\ fst (Tasks.update reader env (t_id task) body
                               (snd (Projects.delete caller id st)))
                        = server_error
                     /\ fst (Tasks.delete reader (t_id task)
                               (snd (Projects.delete caller id st)))
                        = server_error).
Proof.
  unfold Projects.delete.
  destruct (find (Projects.owned_by caller id) (projects st)) as [p|] eqn:E; simpl.
  - split; [repeat split|]. intros Hu _ task Ht Hp reader env body.
    unfold Tasks.get, Tasks.update, Tasks.delete. simpl. rewrite Ht, Hp.
    rewrite (findById_delete_one caller id _ p Hu E). repeat split.
  - split; [repeat split|]. intros _ H. discriminate H.
Qed.

Lemma project_deletion_orphans_tasks_witness :
  fst (Tasks.get "A" "t1" (snd (Projects.delete "A" "p1" store1))) = server_error.
Proof.
  apply (proj2 (project_deletion_orphans_tasks "A" "p1" store1)
           ltac:(unfold Shape.unique; simpl; apply NoDup_ListNoDup;
                 repeat constructor; simpl; tauto)
           eq_refl open_task eq_refl eq_refl "A" env1 assign_to_B).
Defined.

End ProjectLifecycle.

(* ================================================================== *)
(** ** Tasks and comments: creation, reading back *)
(* ================================================================== *)
Section TaskLifecycle.
Import Js Model Http Access Api Examples.

Lemma find_ref_Some {D} (key : D -> Id) (v : value) (coll : list D) (d : D) :
  find_ref key v coll = Some d ->
  v = VStr (key d) /\ findById key (key d) coll = Some d.
Proof.
  destruct v as [| |x]; simpl; try discriminate.
  intros H. destruct (findById_Some _ _ _ _ H) as [<- _]. auto.
Qed.

(** Saving a new document under a fresh identifier and reading it back. *)
Lemma findById_insert_fresh {D} (key : D -> Id) (d : D) (coll : list D) :
  findById key (key d) coll = None ->
  findById key (key d) (insert_doc d coll) = Some d.
Proof.
  unfold findById, insert_doc.
  induction coll as [|x coll IH]; simpl.
  - intros _. rewrite eqb_id_refl. reflexivity.
  - destruct (eqb_id (key x) (key d)); [discriminate|exact IH].
Qed.

(** Saving a new document does not hide the documents that were there. *)
Lemma findById_insert_old {D} (key : D -> Id) (id : Id) (d x : D) (coll : list D) :
  findById key id coll = Some x ->
  findById key id (insert_doc d coll) = Some x.
Proof.
  unfold findById, insert_doc.
  induction coll as [|y coll IH]; simpl; [discriminate|].
  destruct (eqb_id (key y) id); [auto|exact IH].
Qed.



(** Creating a task and reading it back.  When POST /api/tasks answers 201
    for a fresh identifier, the answer is the stored task, it carries the
    fields of the request with the caller as creator, and GET
    /api/tasks/:id returns the same task to the caller. *)
Theorem created_task_can_be_fetched caller env body st :
  findById t_id (oid env) (tasks st) = None ->
  status (fst (Tasks.create caller env body st)) = 201 ->
  exists task,
    fst (Tasks.create caller env body st) = created (OneTask (Some task))
    /\ Tasks.get caller (oid env) (snd (Tasks.create caller env body st))
       = (ok (OneTask (Some task)), snd (Tasks.create caller env body st))
    /\ t_id task = oid env
    /\ t_title task = Tasks.cb_title body
    /\ t_assignedTo task = Tasks.cb_assignedTo body
    /\ t_board task = Tasks.cb_boardId body
    /\ VStr (t_project task) = Tasks.cb_projectId body
    /\ t_createdBy task = caller
    /\ t_createdAt task = now env.
Proof.
  intros Hfresh. unfold Tasks.create.
  destruct (find_ref p_id (Tasks.cb_projectId body) (projects st)) as [p|] eqn:Hp;
    simpl; [|discriminate].
  destruct (access_denied p caller) eqn:Ha; simpl; [discriminate|].
  match goal with
  | |- context [if ?b then (not_found _, _) else _] => destruct b; simpl
  end; [discriminate|].
  intros _.
  destruct (find_ref_Some _ _ _ _ Hp) as [Hv Hfind].
  set (task := mkTask (oid env) (Tasks.cb_title body) (Tasks.cb_description body)
                 (Tasks.cb_priority body) (Tasks.cb_status body) (Tasks.cb_dueDate body)
                 (Tasks.cb_boardId body) (p_id p) caller (Tasks.cb_assignedTo body)
                 (now env)).
  assert (Hsaved : findById t_id (oid env) (insert_doc task (tasks st)) = Some task)
    by (apply (findById_insert_fresh t_id task), Hfresh).
  exists task.
  destruct (Tasks.notifies_on_create (Tasks.cb_assignedTo body) caller); simpl;
    rewrite Hsaved; unfold Tasks.get; simpl; rewrite Hsaved; simpl;
    rewrite Hfind, Ha; repeat split; auto.
Qed.

Lemma created_task_can_be_fetched_witness :
  exists task,
    fst (Tasks.create "A" env1 task_for_B store1) = created (OneTask (Some task))
    /\ Tasks.get "A" "x1" (snd (Tasks.create "A" env1 task_for_B store1))
       = (ok (OneTask (Some task)), snd (Tasks.create "A" env1 task_for_B store1))
    /\ t_id task = "x1"
    /\ t_title task = VStr "Review"
    /\ t_assignedTo task = VStr "B"
    /\ t_board task = VUndefined
    /\ VStr (t_project task) = VStr "p1"
    /\ t_createdBy task = "A"
    /\ t_createdAt task = 10.
Proof.
  apply (created_task_can_be_fetched "A" env1 task_for_B store1); reflexivity.
Defined.

(** Updating a task and reading it back.  When PUT /api/tasks/:id answers
    200, the answer is the stored task with the fields patched, and GET
    /api/tasks/:id returns the same to the caller. *)
Theorem updated_task_can_be_fetched caller env id body st :
  status (fst (Tasks.update caller env id body st)) = 200 ->
  exists task,
    findById t_id id (tasks st) = Some task
    /\ fst (Tasks.update caller env id body st)
       = ok (OneTask (Some (Tasks.patch body task)))
    /\ Tasks.get caller id (snd (Tasks.update caller env id body st))
       = (ok (OneTask (Some (Tasks.patch body task))),
          snd (Tasks.update caller env id body st)).
Proof.
  unfold Tasks.update.
  destruct (findById t_id id (tasks st)) as [task|] eqn:Ht; simpl; [|discriminate].
  destruct (findById p_id (t_project task) (projects st)) as [p|] eqn:Hp;
    simpl; [|discriminate].
  destruct (access_denied p caller) eqn:Ha; simpl; [discriminate|].
  intros _. exists task. split; [reflexivity|].
  destruct (findById_Some _ _ _ _ Ht) as [Hid _].
  assert (Hsaved : findById t_id id (replace_doc t_id (Tasks.patch body task) (tasks st))
                   = Some (Tasks.patch body task)).
  { rewrite <- Hid. apply (findById_replace_doc t_id (Tasks.patch body task) task).
    simpl. rewrite Hid. exact Ht. }
  destruct (Tasks.notifies_on_update (Tasks.ub_assignedTo body) task); simpl;
    rewrite Hid, Hsaved; unfold Tasks.get; simpl; rewrite Hsaved; simpl;
    rewrite Hp, Ha; split; reflexivity.
Qed.

Lemma updated_task_can_be_fetched_witness :
  exists task,
    findById t_id "t1" (tasks store1) = Some task
    /\ fst (Tasks.update "A" env1 "t1" assign_to_B store1)
       = ok (OneTask (Some (Tasks.patch assign_to_B task)))
    /\ Tasks.get "A" "t1" (snd (Tasks.update "A" env1 "t1" assign_to_B store1))
       = (ok (OneTask (Some (Tasks.patch assign_to_B task))),
          snd (Tasks.update "A" env1 "t1" assign_to_B store1)).
Proof.
  apply (updated_task_can_be_fetched "A" env1 "t1" assign_to_B store1). reflexivity.
Defined.

(** Notifications are not deduplicated.  When a comment on a task whose
    assignee is not the author has been created, a second comment by the
    same author is created as well, and each of the two has added its own
    [comment_added] notification for the assignee. *)
Theorem repeated_comment_notifies_again caller env env' body st task :
  find_ref t_id (Comments.cb_taskId body) (tasks st) = Some task ->
  status (fst (Comments.create caller env body st)) = 201 ->
  truthy (t_assignedTo task) = true ->
  template (t_assignedTo task) <> caller ->
  status (fst (Comments.create caller env' body
                 (snd (Comments.create caller env body st)))) = 201
  /\ exists n n',
       notifications (snd (Comments.create caller env' body
                             (snd (Comments.create caller env body st))))
       = (notifications st ++ [n; n'])%list
       /\ n_user n = template (t_assignedTo task) /\ n_type n = comment_added
       /\ n_user n' = template (t_assignedTo task) /\ n_type n' = comment_added
       /\ n_id n = notif_oid env /\ n_id n' = notif_oid env'.
Proof.
  intros Ht H201 Hassigned Hother.
  unfold Comments.create in H201. rewrite Ht in H201.
  destruct (findById p_id (t_project task) (projects st)) as [p|] eqn:Hp;
    simpl in H201; [|discriminate].
  destruct (access_denied p caller) eqn:Ha; simpl in H201; [discriminate|].
  clear H201.
  assert (Hn : Comments.notifies task caller = true).
  { unfold Comments.notifies. rewrite Hassigned. simpl.
    apply negb_true_iff, String.eqb_neq, Hother. }
  assert (Hfirst : forall e s,
             find_ref t_id (Comments.cb_taskId body) (tasks s) = Some task ->
             findById p_id (t_project task) (projects s) = Some p ->
             snd (Comments.create caller e body s)
             = set_notifications
                 (set_comments s
                    (insert_doc (mkComment (oid e) (Comments.cb_content body) (t_id task)
                                   caller (now e)) (comments s)))
                 (insert_doc (Comments.comment_notification e task (p_id p))
                    (notifications s))
             /\ status (fst (Comments.create caller e body s)) = 201).
  { intros e s Hts Hps. unfold Comments.create. rewrite Hts, Hps, Ha, Hn.
    split; reflexivity. }
  destruct (Hfirst env st Ht Hp) as [H1 _]. rewrite H1.
  match goal with
  | |- context [Comments.create caller env' body ?s2] =>
      destruct (Hfirst env' s2 Ht Hp) as [H2 H2s]
  end.
  rewrite H2. split; [exact H2s|].
  eexists. eexists. unfold insert_doc. simpl. rewrite <- app_assoc. simpl.
  split; [reflexivity|]. repeat split.
Qed.

Lemma repeated_comment_notifies_again_witness :
  status (fst (Comments.create "A" (mkEnv 11 "x3" "x4") comment_on_t2
                 (snd (Comments.create "A" env1 comment_on_t2 store1)))) = 201
  /\ exists n n',
       notifications (snd (Comments.create "A" (mkEnv 11 "x3" "x4") comment_on_t2
                             (snd (Comments.create "A" env1 comment_on_t2 store1))))
       = (notifications store1 ++ [n; n'])%list
       /\ n_user n = "B" /\ n_type n = comment_added
       /\ n_user n' = "B" /\ n_type n' = comment_added
       /\ n_id n = "x2" /\ n_id n' = "x4".
Proof.
  apply (repeated_comment_notifies_again "A" env1 (mkEnv 11 "x3" "x4") comment_on_t2
           store1 assigned_task);
    [reflexivity|reflexivity|reflexivity|discriminate].
Defined.

End TaskLifecycle.

(* ================================================================== *)
(** ** Saving and deleting by identifier *)
(* ================================================================== *)
Section Documents.
Import Js Model Http Access Api Examples.

Lemma findById_replace_doc_other {D} (key : D -> Id) (d : D) (id' : Id) (coll : list D) :
  key d <> id' ->
  findById key id' (replace_doc key d coll) = findById key id' coll.
Proof.
  intros Hne. unfold findById, replace_doc.
  induction coll as [|y coll IH]; simpl; [reflexivity|].
  destruct (eqb_id (key y) (key d)) eqn:E.
  - apply eqb_id_eq in E.
    assert (E1 : eqb_id (key d) id' = false) by (by apply eqb_id_neq).
    assert (E2 : eqb_id (key y) id' = false) by (apply eqb_id_neq; congruence).
    rewrite E1, E2. exact IH.
  - destruct (eqb_id (key y) id'); [reflexivity|exact IH].
Qed.

Lemma findById_delete_doc_other {D} (key : D -> Id) (id id' : Id) (coll : list D) :
  id <> id' ->
  findById key id' (delete_doc key id coll) = findById key id' coll.
Proof.
  intros Hne. unfold findById, delete_doc.
  induction coll as [|y coll IH]; simpl; [reflexivity|].
  destruct (eqb_id (key y) id) eqn:E; simpl.
  - apply eqb_id_eq in E.
    assert (E2 : eqb_id (key y) id' = false) by (apply eqb_id_neq; congruence).
    rewrite E2. exact IH.
  - destruct (eqb_id (key y) id'); [reflexivity|exact IH].
Qed.

Lemma findById_insert_other {D} (key : D -> Id) (d : D) (id' : Id) (coll : list D) :
  key d <> id' ->
  findById key id' (insert_doc d coll) = findById key id' coll.
Proof.
  intros Hne. unfold findById, insert_doc.
  induction coll as [|y coll IH]; simpl.
  - assert (E : eqb_id (key d) id' = false) by (by apply eqb_id_neq).
    rewrite E. reflexivity.
  - destruct (eqb_id (key y) id'); [reflexivity|exact IH].
Qed.

(** A by-id request acts on the document it names and on no other: for
    every other identifier, what [findById] returns in the boards, tasks and
    comments is the same before and after the request, and so it is in the
    notifications, the one that PUT /api/tasks/:id may add apart. *)
Theorem by_id_request_touches_one_document (h : by_id) (caller id id' : Id) (st : Store) :
  id' <> id ->
  findById b_id id' (boards (snd (run_by_id h caller id st)))
  = findById b_id id' (boards st)
  /\ findById t_id id' (tasks (snd (run_by_id h caller id st)))
     = findById t_id id' (tasks st)
  /\ findById c_id id' (comments (snd (run_by_id h caller id st)))
     = findById c_id id' (comments st)
  /\ (emits (ById h id) = true
      \/ findById n_id id' (notifications (snd (run_by_id h caller id st)))
         = findById n_id id' (notifications st)).
Proof.
  intros Hne.
  destruct h; simpl;
    unfold Boards.get, Boards.update, Boards.delete,
      Tasks.get, Tasks.update, Tasks.delete,
      Comments.get, Comments.update, Comments.delete,
      Notifications.get, Notifications.read, Notifications.delete;
    repeat match goal with
           | |- context [findById ?k id ?c] =>
               let E := fresh "Hfind" in
               destruct (findById k id c) eqn:E; simpl;
               [apply findById_Some in E as [E _]|]
           | |- context [findById p_id (?f ?x) ?c] =>
               destruct (findById p_id (f x) c); simpl
           | |- context [Comments.project_of ?c ?s] =>
               destruct (Comments.project_of c s); simpl
           | |- context [if ?b then _ else _] => destruct b; simpl
           end;
    repeat split; auto;
    try (apply findById_replace_doc_other; simpl; congruence);
    try (apply findById_delete_doc_other; congruence);
    right;
    [apply findById_replace_doc_other; simpl; congruence
    |apply findById_delete_doc_other; congruence].
Qed.

Lemma by_id_request_touches_one_document_witness :
  findById t_id "t2" (tasks (snd (run_by_id DeleteTask "A" "t1" store1)))
  = findById t_id "t2" (tasks store1).
Proof.
  apply (by_id_request_touches_one_document DeleteTask "A" "t1" "t2" store1).
  discriminate.
Defined.

Lemma replace_doc_absent {D} (key : D -> Id) (d : D) (coll : list D) :
  (forall y, In y coll -> key y <> key d) -> replace_doc key d coll = coll.
Proof.
  unfold replace_doc. induction coll as [|y coll IH]; simpl; [reflexivity|].
  intros H.
  assert (E : eqb_id (key y) (key d) = false) by (apply eqb_id_neq, H; auto).
  rewrite E, IH; [reflexivity|]. intros z Hz. apply H. auto.
Qed.

(** With unique identifiers, saving a loaded document changes nothing that
    the new version shares with the loaded one. *)
Lemma replace_doc_keeps {D V} (key : D -> Id) (g : D -> V) (d x : D) (coll : list D) :
  Shape.unique key coll ->
  findById key (key d) coll = Some x ->
  g d = g x ->
  List.map g (replace_doc key d coll) = List.map g coll.
Proof.
  intros Hu Hfind Hg. induction coll as [|y coll IH]; [discriminate|].
  apply unique_cons in Hu as [Hfresh Hu].
  unfold findById in Hfind. simpl in Hfind. unfold replace_doc. simpl.
  destruct (eqb_id (key y) (key d)) eqn:E.
  - injection Hfind as <-. rewrite Hg. f_equal.
    fold (replace_doc key d coll). rewrite replace_doc_absent; [reflexivity|].
    apply eqb_id_eq in E. intros z Hz. rewrite <- E. apply Hfresh, Hz.
  - f_equal. apply (IH Hu Hfind).
Qed.

(** An update never moves a document and never rewrites its origin.  With
    unique identifiers, after PUT /api/tasks/:id every stored task has the
    identifier, project, board, creator and creation time it had, in the same
    order; after PUT /api/boards/:id every board has its identifier, project
    and creation time; after PUT /api/comments/:id every comment has its
    identifier, task, author and creation time; and after PUT
    /api/notifications/:id/read every notification is as before but for the
    read flag. *)
Theorem updates_keep_origin :
  (forall caller env id body st,
      Shape.unique t_id (tasks st) ->
      List.map (fun t => (t_id t, t_project t, t_board t, t_createdBy t, t_createdAt t))
        (tasks (snd (Tasks.update caller env id body st)))
      = List.map (fun t => (t_id t, t_project t, t_board t, t_createdBy t, t_createdAt t))
          (tasks st))
  /\ (forall caller id body st,
         Shape.unique b_id (boards st) ->
         List.map (fun b => (b_id b, b_project b, b_createdAt b))
           (boards (snd (Boards.update caller id body st)))
         = List.map (fun b => (b_id b, b_project b, b_createdAt b)) (boards st))
  /\ (forall caller id content st,
         Shape.unique c_id (comments st) ->
         List.map (fun c => (c_id c, c_task c, c_author c, c_createdAt c))
           (comments (snd (Comments.update caller id content st)))
         = List.map (fun c => (c_id c, c_task c, c_author c, c_createdAt c)) (comments st))
  /\ (forall caller id st,
         Shape.unique n_id (notifications st) ->
         List.map (fun n => (n_id n, n_user n, n_type n, n_message n, n_relatedTask n,
                             n_relatedProject n, n_createdAt n))
           (notifications (snd (Notifications.read caller id st)))
         = List.map (fun n => (n_id n, n_user n, n_type n, n_message n, n_relatedTask n,
                               n_relatedProject n, n_createdAt n))
             (notifications st)).
Proof.
  repeat apply conj.
  - intros caller env id body st Hu. unfold Tasks.update.
    destruct (findById t_id id (tasks st)) as [task|] eqn:Ht; simpl; [|reflexivity].
    destruct (findById p_id (t_project task) (projects st)); simpl; [|reflexivity].
    destruct (access_denied _ _); simpl; [reflexivity|].
    destruct (findById_Some _ _ _ _ Ht) as [Hid _].
    destruct (Tasks.notifies_on_update _ _); simpl;
      apply (replace_doc_keeps t_id _ (Tasks.patch body task) task); auto;
      simpl; rewrite Hid; exact Ht.
  - intros caller id body st Hu. unfold Boards.update.
    destruct (findById b_id id (boards st)) as [board|] eqn:Hb; simpl; [|reflexivity].
    destruct (findById p_id (b_project board) (projects st)); simpl; [|reflexivity].
    destruct (access_denied _ _); simpl; [reflexivity|].
    destruct (Boards.valid _); simpl; [|reflexivity].
    destruct (findById_Some _ _ _ _ Hb) as [Hid _].
    apply (replace_doc_keeps b_id _ (Boards.patch body board) board); auto.
    simpl. rewrite Hid. exact Hb.
  - intros caller id content st Hu. unfold Comments.update.
    destruct (findById c_id id (comments st)) as [comment|] eqn:Hc; simpl; [|reflexivity].
    destruct (negb _); simpl; [reflexivity|].
    destruct (findById_Some _ _ _ _ Hc) as [Hid _].
    apply (replace_doc_keeps c_id _ (Comments.patch content comment) comment); auto.
    simpl. rewrite Hid. exact Hc.
  - intros caller id st Hu. unfold Notifications.read.
    destruct (findById n_id id (notifications st)) as [n|] eqn:Hn; simpl; [|reflexivity].
    destruct (negb _); simpl; [reflexivity|].
    destruct (findById_Some _ _ _ _ Hn) as [Hid _].
    apply (replace_doc_keeps n_id _ (Notifications.mark_read n) n); auto.
    simpl. rewrite Hid. exact Hn.
Qed.

Lemma updates_keep_origin_witness :
  List.map (fun t => (t_id t, t_project t, t_board t, t_createdBy t, t_createdAt t))
    (tasks (snd (Tasks.update "A" env1 "t1" assign_to_B store1)))
  = List.map (fun t => (t_id t, t_project t, t_board t, t_createdBy t, t_createdAt t))
      (tasks store1).
Proof.
  apply (proj1 updates_keep_origin "A" env1 "t1" assign_to_B store1).
  unfold Shape.unique. simpl. apply NoDup_ListNoDup.
  repeat constructor; simpl; intuition discriminate.
Defined.

End Documents.

(* ================================================================== *)
(** ** Board names *)
(* ================================================================== *)
Section BoardNames.
Import Js Model Http Access Api Examples.

Lemma trim_end_no_trailing_space (s : string) : no_trailing_space (trim_end s).
Proof.
  induction s as [|c s IH]; simpl; [exact I|].
  destruct (trim_end s) as [|c' r] eqn:E.
  - destruct (is_space c) eqn:Ec; simpl; [exact I|exact Ec].
  - exact IH.
Qed.


Lemma trim_shape (s : string) :
  no_leading_space (trim s) /\ no_trailing_space (trim s).
Proof.
  unfold trim. split.
  - apply trim_end_no_leading_space, trim_start_no_leading_space.
  - apply trim_end_no_trailing_space.
Qed.


Lemma truthy_VStr_iff (s : string) : truthy (VStr s) = true <-> s <> EmptyString.
Proof.
  simpl. rewrite negb_true_iff. apply String.eqb_neq.
Qed.

(** A name that passed the setter and the validator of the schema. *)
Lemma valid_set_name (b : Board) (v : value) :
  b_name b = Boards.set_name v -> Boards.valid b = true -> Shape.well_named b.
Proof.
  unfold Boards.valid. intros Hn. rewrite Hn.
  destruct v as [| |s]; simpl in *; try discriminate.
  intros H. exists (trim s). split; [exact Hn|].
  split; [by apply (truthy_VStr_iff (trim s))|apply trim_shape].
Qed.

Lemma handle_boards caller r st :
  boards (snd (handle caller r st)) = boards st
  \/ (exists env body, r = PostBoard env body)
  \/ (exists body id, r = ById (PutBoard body) id)
  \/ (exists id, r = ById DeleteBoard id).
Proof.
  destruct r as [h id| | | | | | | | | | | | | | | | |];
    [destruct h|..]; try (right; eauto 10; fail); left; simpl;
    unfold Boards.get, Boards.list_by_project,
      Tasks.get, Tasks.update, Tasks.delete, Tasks.create,
      Tasks.list_by_project, Tasks.list_by_board,
      Comments.get, Comments.update, Comments.delete, Comments.create,
      Comments.list_by_task,
      Notifications.get, Notifications.read, Notifications.delete,
      Notifications.list_for_caller, Notifications.unread, Notifications.count,
      Notifications.read_all, Notifications.delete_all,
      Projects.list_for_caller, Projects.get, Projects.create, Projects.update,
      Projects.delete, find_ref;
    repeat match goal with
           | |- context [match ?v with VUndefined => _ | _ => _ end] => destruct v
           | |- context [findById ?k ?i ?c] => destruct (findById k i c); simpl
           | |- context [find ?f ?c] => destruct (find f c); simpl
           | |- context [Comments.project_of ?c ?s] =>
               destruct (Comments.project_of c s); simpl
           | |- context [if ?b then _ else _] => destruct b; simpl
           end;
    reflexivity.
Qed.

Lemma handle_keeps_well_named caller r st :
  Forall Shape.well_named (boards st) ->
  Forall Shape.well_named (boards (snd (handle caller r st))).
Proof.
  intros Hinv.
  destruct (handle_boards caller r st)
    as [->|[(env & body & ->)|[(body & id & ->)|(id & ->)]]];
    [exact Hinv|..]; simpl.
  - unfold Boards.create.
    destruct (find_ref p_id (Boards.cb_projectId body) (projects st)) as [p|];
      simpl; [|exact Hinv].
    destruct (access_denied p caller); simpl; [exact Hinv|].
    destruct (Boards.valid _) eqn:Hv; simpl; [|exact Hinv].
    apply Forall_app. split; [exact Hinv|]. constructor; [|constructor].
    apply (valid_set_name _ (Boards.cb_name body)); [reflexivity|exact Hv].
  - unfold Boards.update.
    destruct (findById b_id id (boards st)) as [board|]; simpl; [|exact Hinv].
    destruct (findById p_id (b_project board) (projects st)) as [p|];
      simpl; [|exact Hinv].
    destruct (access_denied p caller); simpl; [exact Hinv|].
    destruct (Boards.valid _) eqn:Hv; simpl; [|exact Hinv].
    rewrite List.Forall_forall in *. intros b Hb.
    unfold replace_doc in Hb. apply List.in_map_iff in Hb as (y & <- & Hy).
    destruct (eqb_id _ _); [|exact (Hinv y Hy)].
    apply (valid_set_name _ (or_else (Boards.ub_name body) (b_name board)));
      [reflexivity|exact Hv].
  - unfold Boards.delete.
    destruct (findById b_id id (boards st)) as [board|]; simpl; [|exact Hinv].
    destruct (findById p_id (b_project board) (projects st)) as [p|];
      simpl; [|exact Hinv].
    destruct (not_owner p caller); simpl; [exact Hinv|].
    rewrite List.Forall_forall in *. intros b Hb.
    unfold delete_doc in Hb. apply List.filter_In in Hb as [Hb _]. exact (Hinv b Hb).
Qed.

(** In every store the handlers can reach from the empty one, the name of
    each board is a non-empty string with no white space at its start or
    end: the schema of models/Board.js trims the name and requires it, and
    both handlers that write a board go through it. *)
Theorem reachable_boards_are_well_named (st : Store) :
  reachable st ->
  forall b, In b (boards st) -> Shape.well_named b.
Proof.
  intros Hreach.
  assert (Hall : Forall Shape.well_named (boards st)).
  { induction Hreach as [|st caller r _ IH]; [constructor|].
    apply handle_keeps_well_named, IH. }
  rewrite List.Forall_forall in Hall. exact Hall.
Qed.

Lemma reachable_boards_are_well_named_witness :
  Shape.well_named (mkBoard "x5" (VStr "Sprint 1") VUndefined "x1" 12).
Proof.
  apply (reachable_boards_are_well_named
           (snd (handle "A" (PostBoard (mkEnv 12 "x5" "x6")
                               (Boards.mkCreate (VStr "  Sprint 1 ") VUndefined (VStr "x1")))
                   (snd (handle "A" (PostProject env1 demo_body) empty_store))))).
  - apply reach_step. apply reach_step. apply reach_empty.
  - simpl. left. reflexivity.
Defined.





End BoardNames.

(* ================================================================== *)
(** ** What follows a creation or a deletion *)
(* ================================================================== *)
Section Aftermath.
Import Js Model Http Access Api Examples.

(** A new comment shows up in the listing of its task: when POST
    /api/comments has answered 201, GET /api/comments/task/:taskId answers
    the caller with a list that contains the new comment. *)
Theorem created_comment_is_listed caller env body st task :
  find_ref t_id (Comments.cb_taskId body) (tasks st) = Some task ->
  status (fst (Comments.create caller env body st)) = 201 ->
  exists l,
    fst (Comments.list_by_task caller (t_id task) (snd (Comments.create caller env body st)))
    = ok (CommentList l)
    /\ In (mkComment (oid env) (Comments.cb_content body) (t_id task) caller (now env)) l.
Proof.
  intros Ht. unfold Comments.create. rewrite Ht.
  destruct (find_ref_Some _ _ _ _ Ht) as [_ Hfind].
  destruct (findById p_id (t_project task) (projects st)) as [p|] eqn:Hp;
    simpl; [|discriminate].
  destruct (access_denied p caller) eqn:Ha; simpl; [discriminate|].
  intros _. unfold Comments.list_by_task.
  destruct (Comments.notifies task caller); simpl;
    rewrite Hfind, Hp, Ha; simpl; eexists; (split; [reflexivity|]);
    apply (Permutation_in _ (Permutation_sym (merge_sort_Permutation _ _)));
    apply List.filter_In; (split; [apply in_or_app; right; left; reflexivity|]);
    simpl; apply eqb_id_refl.
Qed.

Lemma created_comment_is_listed_witness :
  exists l,
    fst (Comments.list_by_task "A" "t2" (snd (Comments.create "A" env1 comment_on_t2 store1)))
    = ok (CommentList l)
    /\ In (mkComment "x1" (VStr "Please check") "t2" "A" 10) l.
Proof.
  apply (created_comment_is_listed "A" env1 comment_on_t2 store1 assigned_task);
    reflexivity.
Defined.

Lemma unread_count_after_insert (u : Id) (n : Notification) (l : list Notification) :
  length (List.filter (Notifications.unread_of_user u) (insert_doc n l))
  = length (List.filter (Notifications.unread_of_user u) l)
    + (if Notifications.unread_of_user u n then 1 else 0).
Proof.
  unfold insert_doc. rewrite List.filter_app, List.length_app. simpl.
  destruct (Notifications.unread_of_user u n); reflexivity.
Qed.

(** Assigning a task at creation raises the unread count of the assignee by
    one and nobody else's: when POST /api/tasks has answered 201 with an
    [assignedTo] other than the caller, GET /api/notifications/count answers
    the assignee one more than before and every other user the same as
    before. *)
Theorem assignment_raises_unread_count caller env body st :
  status (fst (Tasks.create caller env body st)) = 201 ->
  truthy (Tasks.cb_assignedTo body) = true ->
  template (Tasks.cb_assignedTo body) <> caller ->
  forall u k,
    fst (Notifications.count u st) = ok (Count k) ->
    fst (Notifications.count u (snd (Tasks.create caller env body st)))
    = ok (Count (if String.eqb (template (Tasks.cb_assignedTo body)) u
                 then S k else k)).
Proof.
  unfold Tasks.create.
  destruct (find_ref p_id (Tasks.cb_projectId body) (projects st)) as [p|];
    simpl; [|discriminate].
  destruct (access_denied p caller); simpl; [discriminate|].
  match goal with
  | |- context [if ?b then (not_found _, _) else _] => destruct b; simpl
  end; [discriminate|].
  intros _ Ha Hne u k. unfold Tasks.notifies_on_create. rewrite Ha.
  apply String.eqb_neq in Hne. rewrite Hne. simpl.
  unfold Notifications.count. simpl. intros [= <-].
  rewrite unread_count_after_insert.
  unfold Notifications.unread_of_user at 2. simpl. unfold eqb_id.
  destruct (String.eqb (template (Tasks.cb_assignedTo body)) u); simpl;
    do 2 f_equal; lia.
Qed.

Lemma assignment_raises_unread_count_witness :
  fst (Notifications.count "B" (snd (Tasks.create "A" env1 task_for_B store1)))
  = ok (Count 2).
Proof.
  apply (assignment_raises_unread_count "A" env1 task_for_B store1
           eq_refl eq_refl ltac:(discriminate) "B" 1 eq_refl).
Defined.

(** Deleting a task does not cascade: comments, notifications, boards and
    projects stay as they were.  The comments of the deleted task are from
    then on out of reach: their listing answers 404, and reading or deleting
    one of them answers 500 to every caller, its author included. *)
Theorem task_deletion_orphans_comments caller id st :
  (comments (snd (Tasks.delete caller id st)) = comments st
   /\ notifications (snd (Tasks.delete caller id st)) = notifications st
   /\ boards (snd (Tasks.delete caller id st)) = boards st
   /\ projects (snd (Tasks.delete caller id st)) = projects st)
  /\ (status (fst (Tasks.delete caller id st)) = 200 ->
      (forall reader,
          fst (Comments.list_by_task reader id (snd (Tasks.delete caller id st)))
          = not_found "Task not found")
      /\ forall comment,
           findById c_id (c_id comment) (comments st) = Some comment ->
           c_task comment = id ->
           forall reader,
             fst (Comments.get reader (c_id comment) (snd (Tasks.delete caller id st)))
             = server_error
             /\ fst (Comments.delete reader (c_id comment)
                       (snd (Tasks.delete caller id st)))
                = server_error).
Proof.
  unfold Tasks.delete.
  destruct (findById t_id id (tasks st)) as [task|]; simpl;
    [|split; [repeat split|discriminate]].
  destruct (findById p_id (t_project task) (projects st)) as [p|]; simpl;
    [|split; [repeat split|discriminate]].
  destruct (not_owner p caller); simpl; [split; [repeat split|discriminate]|].
  split; [repeat split|]. intros _. split.
  - intros reader. unfold Comments.list_by_task. simpl.
    rewrite findById_delete_doc. reflexivity.
  - intros comment Hc Ht reader.
    unfold Comments.get, Comments.delete, Comments.project_of. simpl.
    rewrite Hc, Ht. rewrite findById_delete_doc. split; reflexivity.
Qed.

Lemma task_deletion_orphans_comments_witness :
  fst (Comments.get "B" "c1" (snd (Tasks.delete "A" "t2" store1))) = server_error
  /\ fst (Comments.delete "B" "c1" (snd (Tasks.delete "A" "t2" store1))) = server_error.
Proof.
  apply (proj2 (proj2 (task_deletion_orphans_comments "A" "t2" store1) eq_refl)
           first_comment eq_refl eq_refl "B").
Defined.



End Aftermath.
